(** * JODDB job-order tracking: the task workflow, the fan-out of a job order
      and the technician metrics, embedded from the Django sources

    The development follows the layout of [backend/core]:
    - Python values the code computes with (decimal formatting, IEEE doubles);
    - [models.py]: one record per model, one module per model;
    - the database as a record of tables, each a list of rows in primary-key
      order; [objects.create] and [bulk_create] append rows under fresh keys,
      [save(update_fields=...)] rewrites the named columns of one row;
    - [permissions.py], [notifications/utils.py], [signals.py],
      [serializers.py], [views.py], [metrics/calculations.py].

    Timestamps are microseconds since the epoch (the resolution of a Python
    [datetime]).  A [str] is held as its UTF-8 encoding, one [ascii] per
    byte.  A call that may raise returns an [Outcome]; the unique index on
    [Device.serial_number] is checked by [bulk_create], which raises
    [IntegrityError].  Uniqueness of the primary keys is stated as a
    hypothesis where a theorem needs it, not built into the tables. *)

From Stdlib Require Import ZArith List String Ascii Bool Lia Permutation.
From Stdlib Require Import DecimalString DecimalPos.
From Stdlib Require Import Floats.SpecFloat.
Import ListNotations.
Open Scope string_scope.
Open Scope Z_scope.

(* ===================================================================== *)
(** * Python values *)
(* ===================================================================== *)

Module Py.

(** [str(n)] for an [int]. *)
Definition str (n : Z) : string := NilEmpty.string_of_int (Z.to_int n).

Fixpoint zeros (k : nat) : string :=
  match k with
  | O => ""
  | S k' => String "0" (zeros k')
  end.

(** [f"{n:0{width}d}"]: sign first, then zeros up to [width] characters in
    all, then the decimal digits; wider numbers are not cut. *)
Definition format_0d (width : nat) (n : Z) : string :=
  if n <? 0
  then let digits := str (- n) in
       "-" ++ zeros (width - 1 - String.length digits) ++ digits
  else let digits := str n in
       zeros (width - String.length digits) ++ digits.

(** [range(n)]. *)
Definition range (n : Z) : list Z := map Z.of_nat (seq 0 (Z.to_nat n)).

(** Whether a byte continues the character of the byte before it
    ([10xxxxxx]). *)
Definition continuation (c : ascii) : bool :=
  N.leb 128 (N_of_ascii c) && N.ltb (N_of_ascii c) 192.

(** [s[:n]]: the first [n] characters, each with the bytes that continue
    it. *)
Fixpoint prefix (n : nat) (s : string) : string :=
  match s with
  | EmptyString => EmptyString
  | String c rest =>
      if continuation c then String c (prefix n rest)
      else match n with
           | O => EmptyString
           | S n' => String c (prefix n' rest)
           end
  end.

(** The characters [str.isspace] accepts, by the bytes of their encoding:
    U+0009 to U+000D and U+001C to U+0020 (one byte); U+0085 and U+00A0
    (two bytes); U+1680, U+2000 to U+200A, U+2028, U+2029, U+202F, U+205F
    and U+3000 (three bytes). *)
Definition space1 (a : ascii) : bool :=
  let a := N_of_ascii a in
  (N.leb 9 a && N.leb a 13) || (N.leb 28 a && N.leb a 32).

Definition space2 (a b : ascii) : bool :=
  let a := N_of_ascii a in
  let b := N_of_ascii b in
  N.eqb a 194 && (N.eqb b 133 || N.eqb b 160).

Definition space3 (a b c : ascii) : bool :=
  let a := N_of_ascii a in
  let b := N_of_ascii b in
  let c := N_of_ascii c in
  (N.eqb a 225 && N.eqb b 154 && N.eqb c 128)
  || (N.eqb a 226 && N.eqb b 128
      && ((N.leb 128 c && N.leb c 138) || N.eqb c 168 || N.eqb c 169 || N.eqb c 175))
  || (N.eqb a 226 && N.eqb b 129 && N.eqb c 159)
  || (N.eqb a 227 && N.eqb b 128 && N.eqb c 128).

(** [s.lstrip()]. *)
Fixpoint lstrip (s : string) : string :=
  match s with
  | EmptyString => EmptyString
  | String a r1 =>
      if space1 a then lstrip r1
      else
        match r1 with
        | EmptyString => s
        | String b r2 =>
            if space2 a b then lstrip r2
            else
              match r2 with
              | EmptyString => s
              | String c r3 => if space3 a b c then lstrip r3 else s
              end
        end
  end.

(** The bytes of a text, last first. *)
Definition reversed (s : string) : string :=
  string_of_list_ascii (rev (list_ascii_of_string s)).

(** [lstrip] on the reversed text: the bytes of a character come last
    first. *)
Fixpoint lstrip_reversed (s : string) : string :=
  match s with
  | EmptyString => EmptyString
  | String c r1 =>
      if space1 c then lstrip_reversed r1
      else
        match r1 with
        | EmptyString => s
        | String b r2 =>
            if space2 b c then lstrip_reversed r2
            else
              match r2 with
              | EmptyString => s
              | String a r3 => if space3 a b c then lstrip_reversed r3 else s
              end
        end
  end.

(** [s.rstrip()]. *)
Definition rstrip (s : string) : string := reversed (lstrip_reversed (reversed s)).

(** [s.strip()]. *)
Definition strip (s : string) : string := rstrip (lstrip s).

(** ['\x00' in s]. *)
Definition has_null (s : string) : bool :=
  existsb (fun c => N.eqb (N_of_ascii c) 0) (list_ascii_of_string s).

(** [x or d] for an optional integer: [None] and [0] both give [d]. *)
Definition or_int (x : option Z) (d : Z) : Z :=
  match x with
  | Some v => if v =? 0 then d else v
  | None => d
  end.

(** ** [float]: IEEE-754 binary64, round to nearest even *)

Definition float : Type := spec_float.

Definition prec : Z := 53.
Definition emax : Z := 1024.

(** An integer as an exact mantissa with exponent 0; the operations below
    round their result, not their operands, as Python's [int / int] does. *)
Definition of_int (z : Z) : float :=
  match z with
  | Z0 => S754_zero false
  | Zpos p => S754_finite false p 0
  | Zneg p => S754_finite true p 0
  end.

(** [float(z)]. *)
Definition to_float (z : Z) : float := binary_normalize prec emax z 0 false.

Definition fadd (x y : float) : float := SFadd prec emax x y.
Definition fmul (x y : float) : float := SFmul prec emax x y.
Definition fdiv (x y : float) : float := SFdiv prec emax x y.

(** [a / b] on two [int]s (true division): the correctly rounded quotient.
    Every call site guards [b > 0]. *)
Definition truediv (a b : Z) : float := fdiv (of_int a) (of_int b).

(** [x * n] and [x / n] with an [int] on the right: [n] is converted first. *)
Definition fmul_int (x : float) (n : Z) : float := fmul x (to_float n).
Definition fdiv_int (x : float) (n : Z) : float := fdiv x (to_float n).

(** [sum(xs)] on floats: starts from the integer [0] and adds from the left,
    each addition rounded (CPython before 3.12; later versions carry a
    correction term along and add it at the end). *)
Definition sum (xs : list float) : float := fold_left fadd xs (to_float 0).

(** Nearest integer to [num / den], a tie going to the even one
    ([0 <= num], [0 < den]). *)
Definition round_half_even (num den : Z) : Z :=
  let q := num / den in
  let r := num mod den in
  match 2 * r ?= den with
  | Lt => q
  | Gt => q + 1
  | Eq => if Z.even q then q else q + 1
  end.

(** The integer nearest to [|x| * 10^ndigits] for a finite [x = m * 2^e],
    computed on the exact binary value. *)
Definition scaled_digits (m : positive) (e : Z) (ndigits : Z) : Z :=
  match e with
  | Zneg k => round_half_even (Zpos m * 10 ^ ndigits) (2 ^ Zpos k)
  | _ => Zpos m * 10 ^ ndigits * 2 ^ e
  end.

(** [round(x, ndigits)] for [ndigits >= 0]: the decimal with [ndigits] places
    nearest to the exact value of [x] (half to even), read back as the
    nearest double; zeros, infinities and NaN round to themselves. *)
Definition round (x : float) (ndigits : Z) : float :=
  match x with
  | S754_finite s m e =>
      match scaled_digits m e ndigits with
      | Z0 => S754_zero s
      | n => fdiv (of_int (if s then - n else n)) (of_int (10 ^ ndigits))
      end
  | _ => x
  end.

(** [int(x)]: the fraction is dropped, towards zero. *)
Definition int (x : float) : Z :=
  match x with
  | S754_finite s m e =>
      let n := match e with
               | Zneg k => Zpos m / 2 ^ Zpos k
               | _ => Zpos m * 2 ^ e
               end in
      if s then - n else n
  | _ => 0
  end.

(** [timedelta.total_seconds()] of a difference of [us] microseconds:
    [us / 10**6]. *)
Definition total_seconds (us : Z) : float := truediv us 1000000.

(** The decimal [n / 100] as a double, for writing expected values. *)
Definition hundredths (n : Z) : float := truediv n 100.

End Py.

(* ===================================================================== *)
(** * models.py *)
(* ===================================================================== *)

(** ** Choices *)

Module Role.
Inductive t := technician | quality | supervisor | planning | admin | tester.
Definition eq_dec (a b : t) : {a = b} + {a <> b}.
Proof. decide equality. Defined.
Definition eqb (a b : t) : bool := if eq_dec a b then true else false.
End Role.

Module TaskType.
Inductive t := technician | quality | tester.
Definition eq_dec (a b : t) : {a = b} + {a <> b}.
Proof. decide equality. Defined.
Definition eqb (a b : t) : bool := if eq_dec a b then true else false.
End TaskType.

Module DeviceStatus.
Inductive t := pending | in_progress | completed | rejected.
Definition eq_dec (a b : t) : {a = b} + {a <> b}.
Proof. decide equality. Defined.
Definition eqb (a b : t) : bool := if eq_dec a b then true else false.
End DeviceStatus.

Module TaskStatus.
(** [Task.STATUS_CHOICES], in the order of the source. *)
Inductive t :=
| available
| in_progress
| done
| pending_qa
| qa_approved
| pending_tester
| tester_approved
| pending_supervisor
| supervisor_approved
| rejected
| completed.
Definition eq_dec (a b : t) : {a = b} + {a <> b}.
Proof. decide equality. Defined.
Definition eqb (a b : t) : bool := if eq_dec a b then true else false.

(** [get_status_display()]. *)
Definition display (s : t) : string :=
  match s with
  | available => "Available"
  | in_progress => "In Progress"
  | done => "Done"
  | pending_qa => "Pending QA"
  | qa_approved => "QA Approved"
  | pending_tester => "Pending Tester"
  | tester_approved => "Tester Approved"
  | pending_supervisor => "Pending Supervisor"
  | supervisor_approved => "Supervisor Approved"
  | rejected => "Rejected"
  | completed => "Completed"
  end.
End TaskStatus.

Module Decision.
(** [Inspection.DECISION_CHOICES] and [TesterReview.DECISION_CHOICES];
    [SupervisorReview.DECISION_CHOICES] has no [pending]. *)
Inductive t := pending | accepted | rejected.
Definition eq_dec (a b : t) : {a = b} + {a <> b}.
Proof. decide equality. Defined.
Definition eqb (a b : t) : bool := if eq_dec a b then true else false.
End Decision.

(** ** Rows *)

Module User.
Record t := mk {
  id : Z;
  username : string;
  full_name : string;
  role : Role.t;
  is_active : bool;
  is_superuser : bool
}.
End User.

Module Process.
Record t := mk {
  id : Z;
  job : Z;
  operation_name : string;
  standard_time_seconds : Z;
  task_type : TaskType.t;
  order : Z
}.
End Process.

Module JobOrder.
Record t := mk {
  id : Z;
  job : option Z;
  order_code : string;
  title : string;
  total_devices : Z;
  created_by : option Z
}.
End JobOrder.

Module Device.
Record t := mk {
  id : Z;
  job_order : Z;
  serial_number : string;
  current_status : DeviceStatus.t;
  last_updated : Z;
  created_at : Z
}.

Definition set_current_status (s : DeviceStatus.t) (now : Z) (d : t) : t :=
  mk (id d) (job_order d) (serial_number d) s now (created_at d).
End Device.

Module Task.
Record t := mk {
  id : Z;
  process : option Z;
  device : Z;
  job_order : Z;
  technician : option Z;
  operation_name : string;
  standard_time_seconds : Z;
  task_type : TaskType.t;
  start_time : option Z;
  end_time : option Z;
  actual_time_seconds : option Z;
  status : TaskStatus.t;
  created_at : Z;
  updated_at : Z
}.

(** The columns [start], [end] and the review endpoints write back. *)
Definition with_start (user : Z) (now : Z) (row : t) : t :=
  mk (id row) (process row) (device row) (job_order row)
     (Some user) (operation_name row) (standard_time_seconds row) (task_type row)
     (Some now) (end_time row) (actual_time_seconds row)
     TaskStatus.in_progress (created_at row) now.

Definition with_end (ended actual : Z) (row : t) : t :=
  mk (id row) (process row) (device row) (job_order row)
     (technician row) (operation_name row) (standard_time_seconds row) (task_type row)
     (start_time row) (Some ended) (Some actual)
     TaskStatus.pending_qa (created_at row) ended.

Definition with_status (s : TaskStatus.t) (now : Z) (row : t) : t :=
  mk (id row) (process row) (device row) (job_order row)
     (technician row) (operation_name row) (standard_time_seconds row) (task_type row)
     (start_time row) (end_time row) (actual_time_seconds row)
     s (created_at row) now.

(** [calculate_efficiency]: [None] unless [actual_time_seconds] is truthy and
    positive. *)
Definition calculate_efficiency (self : t) : option Py.float :=
  match actual_time_seconds self with
  | Some actual =>
      if negb (actual =? 0) && (0 <? actual)
      then Some (Py.round
                   (Py.fmul_int (Py.truediv (standard_time_seconds self) actual) 100)
                   2)
      else None
  | None => None
  end.
End Task.

Module Inspection.
Record t := mk {
  id : Z;
  device : Z;
  task : Z;
  inspector : option Z;
  decision : Decision.t;
  comments : string;
  created_at : Z
}.
End Inspection.

Module SupervisorReview.
Record t := mk {
  id : Z;
  inspection : Z;
  supervisor : option Z;
  decision : Decision.t;
  comments : string;
  created_at : Z
}.
End SupervisorReview.

Module TesterReview.
Record t := mk {
  id : Z;
  task : Z;
  tester : option Z;
  decision : Decision.t;
  comments : string;
  created_at : Z
}.
End TesterReview.

(** A JSON value of a notification payload. *)
Inductive JSON :=
| JInt (n : Z)
| JStr (s : string).

Module Notification.
Record t := mk {
  id : Z;
  user : Z;
  type : string;
  message : string;
  payload : list (string * JSON);
  read : bool;
  created_at : Z
}.
End Notification.

(* ===================================================================== *)
(** * The database *)
(* ===================================================================== *)

Record DB := mkDB {
  users : list User.t;
  processes : list Process.t;
  job_orders : list JobOrder.t;
  devices : list Device.t;
  tasks : list Task.t;
  inspections : list Inspection.t;
  tester_reviews : list TesterReview.t;
  supervisor_reviews : list SupervisorReview.t;
  notifications : list Notification.t
}.

(** The key an auto-increment column gives the next row. *)
Definition next_pk (ids : list Z) : Z := 1 + fold_right Z.max 0 ids.

(** [bulk_create]: the unsaved objects receive consecutive keys from [pk] on. *)
Fixpoint assign_pks {A : Type} (pk : Z) (unsaved : list (Z -> A)) : list A :=
  match unsaved with
  | [] => []
  | new :: rest => new pk :: assign_pks (pk + 1) rest
  end.

(** The row a primary key names. *)
Definition get {A : Type} (pk_of : A -> Z) (pk : Z) (rows : list A) : option A :=
  find (fun r => pk_of r =? pk) rows.

(** [save(update_fields=...)]: the row of key [pk] is rewritten by [f]. *)
Definition update {A : Type} (pk_of : A -> Z) (pk : Z) (f : A -> A) (rows : list A) : list A :=
  map (fun r => if pk_of r =? pk then f r else r) rows.

Definition set_devices (db : DB) (ds : list Device.t) : DB :=
  mkDB (users db) (processes db) (job_orders db) ds (tasks db) (inspections db)
       (tester_reviews db) (supervisor_reviews db) (notifications db).

Definition set_tasks (db : DB) (ts : list Task.t) : DB :=
  mkDB (users db) (processes db) (job_orders db) (devices db) ts (inspections db)
       (tester_reviews db) (supervisor_reviews db) (notifications db).

Definition set_inspections (db : DB) (l : list Inspection.t) : DB :=
  mkDB (users db) (processes db) (job_orders db) (devices db) (tasks db) l
       (tester_reviews db) (supervisor_reviews db) (notifications db).

Definition set_tester_reviews (db : DB) (l : list TesterReview.t) : DB :=
  mkDB (users db) (processes db) (job_orders db) (devices db) (tasks db) (inspections db)
       l (supervisor_reviews db) (notifications db).

Definition set_supervisor_reviews (db : DB) (l : list SupervisorReview.t) : DB :=
  mkDB (users db) (processes db) (job_orders db) (devices db) (tasks db) (inspections db)
       (tester_reviews db) l (notifications db).

Definition set_notifications (db : DB) (l : list Notification.t) : DB :=
  mkDB (users db) (processes db) (job_orders db) (devices db) (tasks db) (inspections db)
       (tester_reviews db) (supervisor_reviews db) l.

(** The exceptions the code raises without catching them. *)
Inductive Exception := IntegrityError | MultipleObjectsReturned.

(** What a call leaves: the value it returns, or the exception it raises.
    The statement that raises has written nothing. *)
Inductive Outcome (A : Type) : Type :=
| Returns (value : A)
| Raises (exception : Exception).

Arguments Returns {A} value.
Arguments Raises {A} exception.

(** Whether no text occurs twice in a list. *)
Fixpoint distinct (l : list string) : bool :=
  match l with
  | [] => true
  | s :: rest => negb (existsb (String.eqb s) rest) && distinct rest
  end.

(** Whether a serial number is the one of a row of the table. *)
Definition serial_taken (db : DB) (serial : string) : bool :=
  existsb (fun d => (Device.serial_number d =? serial)%string) (devices db).

(** [Device.objects.bulk_create], returning the saved rows.  The column
    [serial_number] is unique: the insertion raises [IntegrityError], and no
    row is saved, when a serial number is already in the table or comes
    twice in the batch. *)
Definition Device_bulk_create (db : DB) (unsaved : list (Z -> Device.t))
  : Outcome (DB * list Device.t) :=
  let saved := assign_pks (next_pk (map Device.id (devices db))) unsaved in
  if distinct (map Device.serial_number saved)
     && forallb (fun d => negb (serial_taken db (Device.serial_number d))) saved
  then Returns (set_devices db (devices db ++ saved), saved)
  else Raises IntegrityError.

(** [Task.objects.bulk_create]. *)
Definition Task_bulk_create (db : DB) (unsaved : list (Z -> Task.t)) : DB * list Task.t :=
  let saved := assign_pks (next_pk (map Task.id (tasks db))) unsaved in
  (set_tasks db (tasks db ++ saved), saved).

(** [task.device], [task.job_order], [task.technician]: the rows behind the
    foreign keys. *)
Definition Task_device (db : DB) (task : Task.t) : option Device.t :=
  get Device.id (Task.device task) (devices db).

Definition Task_job_order (db : DB) (task : Task.t) : option JobOrder.t :=
  get JobOrder.id (Task.job_order task) (job_orders db).

Definition Task_technician (db : DB) (task : Task.t) : option User.t :=
  match Task.technician task with
  | Some uid => get User.id uid (users db)
  | None => None
  end.

(* ===================================================================== *)
(** * signals.py *)
(* ===================================================================== *)

(** [order_by('order')]: an insertion sort on the [order] column; rows of
    equal [order] (the database allows none within a job) keep the order of
    the table. *)
Fixpoint insert_by_order (p : Process.t) (sorted : list Process.t) : list Process.t :=
  match sorted with
  | [] => [p]
  | q :: rest =>
      if Process.order p <=? Process.order q
      then p :: q :: rest
      else q :: insert_by_order p rest
  end.

Definition order_by_order (ps : list Process.t) : list Process.t :=
  fold_right insert_by_order [] ps.

(** [Process.objects.filter(job=job).order_by('order')]. *)
Definition processes_of_job (db : DB) (job : Z) : list Process.t :=
  order_by_order (filter (fun p => Process.job p =? job) (processes db)).

(** [Device(job_order=instance, serial_number=...)] before it is saved: the
    status is the column default and the timestamps are set on insertion. *)
Definition new_device (instance : JobOrder.t) (now : Z) (i : Z) : Z -> Device.t :=
  fun pk =>
    Device.mk pk (JobOrder.id instance)
      (JobOrder.order_code instance ++ "-" ++ Py.format_0d 4 (i + 1))
      DeviceStatus.pending now now.

(** [Task(job_order=instance, device=device, process=process, ...)]. *)
Definition new_task (instance : JobOrder.t) (now : Z) (device : Device.t) (process : Process.t)
  : Z -> Task.t :=
  fun pk =>
    Task.mk pk (Some (Process.id process)) (Device.id device) (JobOrder.id instance)
      None
      (Process.operation_name process)
      (Process.standard_time_seconds process)
      (Process.task_type process)
      None None None
      TaskStatus.available now now.

(** The [post_save] receiver of [JobOrder].  The exception of
    [Device.objects.bulk_create] is not caught. *)
Definition create_devices_and_tasks_for_job_order
    (db : DB) (instance : JobOrder.t) (created : bool) (now : Z) : Outcome DB :=
  match created, JobOrder.job instance with
  | true, Some job =>
      let processes := processes_of_job db job in
      match processes with
      | [] => Returns db
      | _ :: _ =>
          let devices_to_create :=
            map (new_device instance now) (Py.range (JobOrder.total_devices instance)) in
          match Device_bulk_create db devices_to_create with
          | Raises e => Raises e
          | Returns (db1, created_devices) =>
              let tasks_to_create :=
                flat_map (fun device => map (new_task instance now device) processes)
                         created_devices in
              Returns (fst (Task_bulk_create db1 tasks_to_create))
          end
      end
  | _, _ => Returns db
  end.

(* ===================================================================== *)
(** * permissions.py *)
(* ===================================================================== *)

(** [IsRoleRequired.has_permission] for an authenticated user. *)
Definition has_permission (allowed_roles : list Role.t) (user : User.t) : bool :=
  if User.is_superuser user then true
  else match allowed_roles with
       | [] => true
       | _ :: _ => existsb (Role.eqb (User.role user)) allowed_roles
       end.

Definition IsTechnicianOrAll : list Role.t :=
  [Role.technician; Role.tester; Role.admin; Role.planning; Role.supervisor; Role.quality].

Definition IsQualityOrTesterOrAdmin : list Role.t :=
  [Role.quality; Role.tester; Role.admin].

Definition IsSupervisorOrAdmin : list Role.t := [Role.supervisor; Role.admin].

Definition IsTesterOrAdmin : list Role.t := [Role.tester; Role.admin].

(* ===================================================================== *)
(** * notifications/utils.py *)
(* ===================================================================== *)

(** [create_notification]: one more row in [notifications]. *)
Definition create_notification
    (db : DB) (now : Z) (user_id : Z) (type message : string)
    (payload : list (string * JSON)) : DB :=
  set_notifications db
    (notifications db ++
     [Notification.mk (next_pk (map Notification.id (notifications db)))
        user_id type message payload false now]).

(** [for user in users: create_notification(user_id=user.id, ...)]. *)
Definition notify_each
    (db : DB) (now : Z) (recipients : list User.t) (type message : string)
    (payload : list (string * JSON)) : DB :=
  fold_left (fun db user => create_notification db now (User.id user) type message payload)
            recipients db.

(** [User.objects.filter(role=role, is_active=True)]. *)
Definition active_users_with_role (db : DB) (role : Role.t) : list User.t :=
  filter (fun u => Role.eqb (User.role u) role && User.is_active u) (users db).

(* ===================================================================== *)
(** * serializers.py *)
(* ===================================================================== *)

Definition order_code_of (db : DB) (task : Task.t) : string :=
  match Task_job_order db task with
  | Some jo => JobOrder.order_code jo
  | None => ""
  end.

Definition serial_of (db : DB) (task : Task.t) : string :=
  match Task_device db task with
  | Some d => Device.serial_number d
  | None => ""
  end.

Definition task_type_display (ty : TaskType.t) : string :=
  match ty with
  | TaskType.technician => "Technician Task"
  | TaskType.quality => "Quality Inspection Task"
  | TaskType.tester => "Tester Task"
  end.

(** What [TaskSerializer] renders for one task. *)
Module TaskData.
Record t := mk {
  id : Z;
  job_order_code : option string;
  device_serial : option string;
  technician_username : option string;
  operation_name : string;
  task_type : TaskType.t;
  task_type_display : string;
  standard_time_seconds : Z;
  start_time : option Z;
  end_time : option Z;
  actual_time_seconds : option Z;
  status : TaskStatus.t;
  efficiency : option Py.float;
  created_at : Z
}.
End TaskData.

(** [TaskSerializer.get_efficiency]. *)
Definition get_efficiency (obj : Task.t) : option Py.float :=
  Task.calculate_efficiency obj.

(** [TaskSerializer(task).data]. *)
Definition TaskSerializer (db : DB) (obj : Task.t) : TaskData.t :=
  TaskData.mk (Task.id obj)
    (option_map JobOrder.order_code (Task_job_order db obj))
    (option_map Device.serial_number (Task_device db obj))
    (option_map User.username (Task_technician db obj))
    (Task.operation_name obj)
    (Task.task_type obj)
    (task_type_display (Task.task_type obj))
    (Task.standard_time_seconds obj)
    (Task.start_time obj)
    (Task.end_time obj)
    (Task.actual_time_seconds obj)
    (Task.status obj)
    (get_efficiency obj)
    (Task.created_at obj).

(** The body of a POST to the inspection and tester-review endpoints. *)
Record DecisionRequest := mkDecisionRequest {
  req_task_id : Z;
  req_decision : Decision.t;
  req_comments : string
}.

(** The body of a POST to the supervisor-review endpoint. *)
Record SupervisorRequest := mkSupervisorRequest {
  req_inspection_id : Z;
  req_supervisor_decision : Decision.t;
  req_supervisor_comments : string
}.

(** A [ValidationError]: the field it is reported under and its message.
    When several fields of a request fail, the first in the order of the
    serializer's fields is the one kept here. *)
Definition ValidationError : Type := (string * string)%type.

Definition dquote : string := String (ascii_of_nat 34) EmptyString.

Definition invalid_pk (pk : Z) : string :=
  "Invalid pk " ++ dquote ++ Py.str pk ++ dquote ++ " - object does not exist.".

(** [CharField.run_validation] on the [comments] of a request.  The column
    is a [TextField(blank=True)]: the field takes a blank text and sets no
    length; it strips the text ([trim_whitespace]) and its validators refuse
    a null character.  A request without [comments] is the request with the
    empty text: [validate] reads [data.get('comments')], [perform_create]
    reads [validated_data.get('comments', '')] and the column defaults to
    the empty text. *)
Definition comments_run_validation (data : string) : string + ValidationError :=
  let value := Py.strip data in
  if Py.has_null value
  then inr ("comments", "Null characters are not allowed.")
  else inl value.

(** [InspectionSerializer]: the fields ([task_id] must name a task, the
    comments are stripped), then [validate] on what the fields return.  The
    result is the task and the validated data. *)
Definition InspectionSerializer_validate (db : DB) (data : DecisionRequest)
  : (Task.t * DecisionRequest) + ValidationError :=
  match get Task.id (req_task_id data) (tasks db) with
  | None => inr ("task_id", invalid_pk (req_task_id data))
  | Some task =>
      match comments_run_validation (req_comments data) with
      | inr e => inr e
      | inl comments =>
          if Decision.eqb (req_decision data) Decision.rejected
             && (comments =? "")%string
          then inr ("comments", "Comments are mandatory when rejecting an inspection.")
          else if negb (TaskStatus.eqb (Task.status task) TaskStatus.pending_qa)
          then inr ("task_id",
                    "Task is not ready for QA inspection. Current status: "
                    ++ TaskStatus.display (Task.status task) ++ ".")
          else inl (task, mkDecisionRequest (req_task_id data) (req_decision data) comments)
      end
  end.

(** [TesterReviewSerializer]. *)
Definition TesterReviewSerializer_validate (db : DB) (data : DecisionRequest)
  : (Task.t * DecisionRequest) + ValidationError :=
  match get Task.id (req_task_id data) (tasks db) with
  | None => inr ("task_id", invalid_pk (req_task_id data))
  | Some task =>
      match comments_run_validation (req_comments data) with
      | inr e => inr e
      | inl comments =>
          if Decision.eqb (req_decision data) Decision.rejected
             && (comments =? "")%string
          then inr ("comments", "Comments are mandatory when rejecting a task during testing.")
          else if negb (TaskStatus.eqb (Task.status task) TaskStatus.pending_tester)
          then inr ("task_id",
                    "Task is not ready for tester review. Current status: "
                    ++ TaskStatus.display (Task.status task) ++ ".")
          else inl (task, mkDecisionRequest (req_task_id data) (req_decision data) comments)
      end
  end.

(** [SupervisorReviewSerializer]: [inspection_id] must name an inspection,
    [decision] must be one of the model's choices and the comments are
    stripped; there is no [validate].  The result is the inspection and the
    validated data. *)
Definition SupervisorReviewSerializer_validate (db : DB) (data : SupervisorRequest)
  : (Inspection.t * SupervisorRequest) + ValidationError :=
  match get Inspection.id (req_inspection_id data) (inspections db) with
  | None => inr ("inspection_id", invalid_pk (req_inspection_id data))
  | Some inspection =>
      match req_supervisor_decision data with
      | Decision.pending => inr ("decision", dquote ++ "pending" ++ dquote ++ " is not a valid choice.")
      | decision =>
          match comments_run_validation (req_supervisor_comments data) with
          | inr e => inr e
          | inl comments =>
              inl (inspection, mkSupervisorRequest (req_inspection_id data) decision comments)
          end
      end
  end.

(* ===================================================================== *)
(** * views.py *)
(* ===================================================================== *)

Inductive Response :=
| HTTP_200_OK (data : TaskData.t)
| HTTP_201_CREATED
| HTTP_400_BAD_REQUEST (field message : string)
| HTTP_403_FORBIDDEN (detail : string)
| HTTP_404_NOT_FOUND
| HTTP_500_INTERNAL_SERVER_ERROR.

Definition permission_denied : Response :=
  HTTP_403_FORBIDDEN "You do not have permission to perform this action.".

(** ** TechnicianTaskViewSet *)

(** The filter of [get_queryset]: what each role may see. *)
Definition visible_to (user : User.t) (task : Task.t) : bool :=
  match User.role user with
  | Role.technician =>
      (TaskStatus.eqb (Task.status task) TaskStatus.available
       && TaskType.eqb (Task.task_type task) TaskType.technician)
      || (match Task.technician task with
          | Some uid => uid =? User.id user
          | None => false
          end
          && (TaskStatus.eqb (Task.status task) TaskStatus.in_progress
              || TaskStatus.eqb (Task.status task) TaskStatus.rejected))
  | Role.quality => TaskStatus.eqb (Task.status task) TaskStatus.pending_qa
  | Role.supervisor =>
      TaskStatus.eqb (Task.status task) TaskStatus.tester_approved
      || TaskStatus.eqb (Task.status task) TaskStatus.pending_supervisor
  | Role.tester => TaskStatus.eqb (Task.status task) TaskStatus.pending_tester
  | Role.planning | Role.admin => true
  end.

(** [self.get_object()]: the task of key [pk] in the user's queryset. *)
Definition get_object (db : DB) (user : User.t) (pk : Z) : option Task.t :=
  find (fun task => (Task.id task =? pk) && visible_to user task) (tasks db).

(** [task.technician != user]. *)
Definition technician_is (task : Task.t) (user : User.t) : bool :=
  match Task.technician task with
  | Some uid => uid =? User.id user
  | None => false
  end.

(** [device.save(update_fields=['current_status', 'last_updated'])] on
    [task.device]. *)
Definition save_device_status (db : DB) (now : Z) (task : Task.t) (s : DeviceStatus.t) : DB :=
  set_devices db
    (update Device.id (Task.device task) (Device.set_current_status s now) (devices db)).

(** [task.save(update_fields=['status', 'updated_at'])]. *)
Definition save_task_status (db : DB) (now : Z) (task : Task.t) (s : TaskStatus.t) : DB :=
  set_tasks db (update Task.id (Task.id task) (Task.with_status s now) (tasks db)).

(** The PATCH action [start]. *)
Definition start (db : DB) (user : User.t) (pk : Z) (now : Z) : Response * DB :=
  if negb (has_permission IsTechnicianOrAll user) then (permission_denied, db)
  else
    match get_object db user pk with
    | None => (HTTP_404_NOT_FOUND, db)
    | Some task =>
        if negb (TaskStatus.eqb (Task.status task) TaskStatus.available)
        then (HTTP_400_BAD_REQUEST "detail"
                ("Task cannot be started. Current status: "
                 ++ TaskStatus.display (Task.status task) ++ "."),
              db)
        else
          (* task.save(update_fields=['technician', 'start_time', 'status',
                                      'updated_at']) *)
          let db1 :=
            set_tasks db
              (update Task.id (Task.id task) (Task.with_start (User.id user) now)
                      (tasks db)) in
          let task := Task.with_start (User.id user) now task in
          let db2 := save_device_status db1 now task DeviceStatus.in_progress in
          (HTTP_200_OK (TaskSerializer db2 task), db2)
    end.

(** The row [Inspection.objects.create(...)] inserts at the end of a task. *)
Definition awaiting_inspection (db : DB) (now : Z) (task : Task.t) : Inspection.t :=
  Inspection.mk (next_pk (map Inspection.id (inspections db)))
    (Task.device task) (Task.id task) None Decision.pending
    "Awaiting quality inspection" now.

Definition technician_full_name (db : DB) (task : Task.t) : string :=
  match Task_technician db task with
  | Some u => User.full_name u
  | None => ""
  end.

(** The PATCH action [end]. *)
Definition end_ (db : DB) (user : User.t) (pk : Z) (now : Z) : Response * DB :=
  if negb (has_permission IsTechnicianOrAll user) then (permission_denied, db)
  else
    match get_object db user pk with
    | None => (HTTP_404_NOT_FOUND, db)
    | Some task =>
        if negb (TaskStatus.eqb (Task.status task) TaskStatus.in_progress)
        then (HTTP_400_BAD_REQUEST "detail"
                ("Task cannot be ended. Current status: "
                 ++ TaskStatus.display (Task.status task) ++ "."),
              db)
        else if negb (technician_is task user)
        then (HTTP_403_FORBIDDEN "You are not the assigned technician for this task.", db)
        else
          match Task.start_time task with
          | None =>
              (HTTP_400_BAD_REQUEST "detail"
                 "Task start time is missing. Cannot calculate duration.", db)
          | Some started =>
              (* 1-2. end time and actual time *)
              let end_time := now in
              let time_difference := end_time - started in
              let actual_time_seconds := Py.int (Py.total_seconds time_difference) in
              (* 3-4. status; task.save(update_fields=['end_time',
                      'actual_time_seconds', 'status', 'updated_at']) *)
              let db1 :=
                set_tasks db
                  (update Task.id (Task.id task)
                     (Task.with_end end_time actual_time_seconds) (tasks db)) in
              let task := Task.with_end end_time actual_time_seconds task in
              (* 5. device *)
              let db2 := save_device_status db1 now task DeviceStatus.completed in
              (* 6. inspection *)
              let inspection := awaiting_inspection db2 now task in
              let db3 := set_inspections db2 (inspections db2 ++ [inspection]) in
              (* 7. notifications; task.device, task.job_order and task.technician
                 are the objects fetched with the task, and task.technician is
                 the user by the guard above *)
              let serial := serial_of db task in
              let code := order_code_of db task in
              let db4 :=
                notify_each db3 now (active_users_with_role db3 Role.quality)
                  "task_ready_for_inspection"
                  ("Task #" ++ Py.str (Task.id task) ++ " on device " ++ serial
                   ++ " is ready for quality inspection.")
                  [("task_id", JInt (Task.id task));
                   ("job_order_code", JStr code);
                   ("device_serial", JStr serial);
                   ("inspection_id", JInt (Inspection.id inspection))] in
              let db5 :=
                notify_each db4 now (active_users_with_role db4 Role.tester)
                  "task_ready_for_testing"
                  ("Task #" ++ Py.str (Task.id task) ++ " on device " ++ serial
                   ++ " is ready for testing verification.")
                  [("task_id", JInt (Task.id task));
                   ("job_order_code", JStr code);
                   ("device_serial", JStr serial);
                   ("inspection_id", JInt (Inspection.id inspection))] in
              let db6 :=
                notify_each db5 now (active_users_with_role db5 Role.supervisor)
                  "task_completed"
                  ("Task #" ++ Py.str (Task.id task) ++ " completed by "
                   ++ technician_full_name db task ++ ". Device: " ++ serial)
                  [("task_id", JInt (Task.id task));
                   ("job_order_code", JStr code);
                   ("technician_id", JInt (User.id user));
                   ("inspection_id", JInt (Inspection.id inspection))] in
              (HTTP_200_OK (TaskSerializer db6 task), db6)
          end
    end.

(** ** InspectionViewSet *)

(** [Inspection.objects.filter(task=task, decision='pending')
      .order_by('-created_at').first()]; among rows of one timestamp the
    first in key order is kept. *)
Definition latest (rows : list Inspection.t) : option Inspection.t :=
  fold_left
    (fun best row =>
       match best with
       | None => Some row
       | Some b =>
           if Inspection.created_at b <? Inspection.created_at row
           then Some row else Some b
       end)
    rows None.

Definition pending_inspections (db : DB) (task : Task.t) : list Inspection.t :=
  filter (fun i => (Inspection.task i =? Task.id task)
                   && Decision.eqb (Inspection.decision i) Decision.pending)
         (inspections db).

Definition pending_inspection (db : DB) (task : Task.t) : option Inspection.t :=
  latest (pending_inspections db task).

(** [inspection.save(update_fields=['inspector', 'decision', 'comments',
    'created_at'])]: [created_at] is written back as it was read. *)
Definition review_inspection
    (user : User.t) (decision : Decision.t) (comments : string) (row : Inspection.t)
  : Inspection.t :=
  Inspection.mk (Inspection.id row) (Inspection.device row) (Inspection.task row)
    (Some (User.id user)) decision comments (Inspection.created_at row).

(** [perform_create] of the inspection endpoint, on the validated data. *)
Definition InspectionViewSet_perform_create
    (db : DB) (user : User.t) (task : Task.t) (data : DecisionRequest) (now : Z) : DB :=
  let decision := req_decision data in
  let comments := req_comments data in
  let '(db1, inspection) :=
    match pending_inspection db task with
    | Some inspection =>
        (set_inspections db
           (update Inspection.id (Inspection.id inspection)
              (review_inspection user decision comments) (inspections db)),
         review_inspection user decision comments inspection)
    | None =>
        (* serializer.save(inspector=user, device=task.device, task=task) *)
        let inspection :=
          Inspection.mk (next_pk (map Inspection.id (inspections db)))
            (Task.device task) (Task.id task) (Some (User.id user))
            decision comments now in
        (set_inspections db (inspections db ++ [inspection]), inspection)
    end in
  match decision with
  | Decision.accepted =>
      let db2 := save_task_status db1 now task TaskStatus.pending_tester in
      notify_each db2 now (active_users_with_role db2 Role.tester)
        "task_ready_for_testing"
        ("Task #" ++ Py.str (Task.id task)
         ++ " passed QA inspection and is ready for final testing.")
        [("task_id", JInt (Task.id task));
         ("job_order_code", JStr (order_code_of db task));
         ("device_serial", JStr (serial_of db task))]
  | Decision.rejected =>
      let db2 := save_task_status db1 now task TaskStatus.rejected in
      let db3 := save_device_status db2 now task DeviceStatus.rejected in
      match Task.technician task with
      | Some technician =>
          create_notification db3 now technician "task_rejected"
            ("Task #" ++ Py.str (Task.id task) ++ " was rejected by QA Inspector: "
             ++ Py.prefix 50 (Inspection.comments inspection) ++ "...")
            [("task_id", JInt (Task.id task));
             ("job_order_code", JStr (order_code_of db task));
             ("inspection_id", JInt (Inspection.id inspection))]
      | None => db3
      end
  | Decision.pending => db1
  end.

(** POST to the inspection endpoint ([qa_decision]): permission, validation,
    [perform_create]. *)
Definition InspectionViewSet_create
    (db : DB) (user : User.t) (data : DecisionRequest) (now : Z) : Response * DB :=
  if negb (has_permission IsQualityOrTesterOrAdmin user) then (permission_denied, db)
  else
    match InspectionSerializer_validate db data with
    | inr (field, message) => (HTTP_400_BAD_REQUEST field message, db)
    | inl (task, validated_data) =>
        (HTTP_201_CREATED, InspectionViewSet_perform_create db user task validated_data now)
    end.

(** ** TesterReviewViewSet *)

Definition TesterReviewViewSet_perform_create
    (db : DB) (user : User.t) (task : Task.t) (data : DecisionRequest) (now : Z) : DB :=
  let decision := req_decision data in
  (* 1. serializer.save(tester=user, task=task) *)
  let tester_review :=
    TesterReview.mk (next_pk (map TesterReview.id (tester_reviews db)))
      (Task.id task) (Some (User.id user)) decision (req_comments data) now in
  let db1 := set_tester_reviews db (tester_reviews db ++ [tester_review]) in
  (* 2. the task *)
  match decision with
  | Decision.accepted =>
      let db2 := save_task_status db1 now task TaskStatus.pending_supervisor in
      notify_each db2 now (active_users_with_role db2 Role.supervisor)
        "task_ready_for_supervisor_review"
        ("Task #" ++ Py.str (Task.id task)
         ++ " passed tester inspection and is ready for your final review.")
        [("task_id", JInt (Task.id task));
         ("job_order_code", JStr (order_code_of db task));
         ("device_serial", JStr (serial_of db task))]
  | Decision.rejected =>
      let db2 := save_task_status db1 now task TaskStatus.rejected in
      let db3 := save_device_status db2 now task DeviceStatus.rejected in
      match Task.technician task with
      | Some technician =>
          create_notification db3 now technician "task_rejected"
            ("Task #" ++ Py.str (Task.id task) ++ " was rejected during tester inspection: "
             ++ Py.prefix 50 (TesterReview.comments tester_review) ++ "...")
            [("task_id", JInt (Task.id task));
             ("job_order_code", JStr (order_code_of db task))]
      | None => db3
      end
  | Decision.pending => db1
  end.

(** POST to the tester-review endpoint ([tester_decision]). *)
Definition TesterReviewViewSet_create
    (db : DB) (user : User.t) (data : DecisionRequest) (now : Z) : Response * DB :=
  if negb (has_permission IsTesterOrAdmin user) then (permission_denied, db)
  else
    match TesterReviewSerializer_validate db data with
    | inr (field, message) => (HTTP_400_BAD_REQUEST field message, db)
    | inl (task, validated_data) =>
        (HTTP_201_CREATED, TesterReviewViewSet_perform_create db user task validated_data now)
    end.

(** ** SupervisorReviewViewSet *)

Definition SupervisorReviewViewSet_perform_create
    (db : DB) (user : User.t) (inspection : Inspection.t) (task : Task.t)
    (data : SupervisorRequest) (now : Z) : DB :=
  let decision := req_supervisor_decision data in
  (* 1. serializer.save(supervisor=user) *)
  let supervisor_review :=
    SupervisorReview.mk (next_pk (map SupervisorReview.id (supervisor_reviews db)))
      (Inspection.id inspection) (Some (User.id user)) decision
      (req_supervisor_comments data) now in
  let db1 := set_supervisor_reviews db (supervisor_reviews db ++ [supervisor_review]) in
  (* 2. the task *)
  match decision with
  | Decision.accepted =>
      let db2 := save_task_status db1 now task TaskStatus.supervisor_approved in
      let db3 := save_device_status db2 now task DeviceStatus.completed in
      let db4 :=
        match Task.technician task with
        | Some technician =>
            create_notification db3 now technician "task_completed"
              ("Task #" ++ Py.str (Task.id task)
               ++ " completed successfully after supervisor review.")
              [("task_id", JInt (Task.id task));
               ("job_order_code", JStr (order_code_of db task))]
        | None => db3
        end in
      notify_each db4 now (active_users_with_role db4 Role.tester)
        "task_completed"
        ("Task #" ++ Py.str (Task.id task) ++ " completed after supervisor review.")
        [("task_id", JInt (Task.id task));
         ("job_order_code", JStr (order_code_of db task));
         ("device_serial", JStr (serial_of db task))]
  | Decision.rejected =>
      let db2 := save_task_status db1 now task TaskStatus.rejected in
      let db3 := save_device_status db2 now task DeviceStatus.rejected in
      match Task.technician task with
      | Some technician =>
          create_notification db3 now technician "task_rejected"
            ("Task #" ++ Py.str (Task.id task)
             ++ " was rejected during supervisor review: "
             ++ Py.prefix 50 (SupervisorReview.comments supervisor_review) ++ "...")
            [("task_id", JInt (Task.id task));
             ("job_order_code", JStr (order_code_of db task))]
      | None => db3
      end
  | Decision.pending => db1
  end.

(** POST to the supervisor-review endpoint ([supervisor_decision]);
    [inspection.task] is the row behind the foreign key. *)
Definition SupervisorReviewViewSet_create
    (db : DB) (user : User.t) (data : SupervisorRequest) (now : Z) : Response * DB :=
  if negb (has_permission IsSupervisorOrAdmin user) then (permission_denied, db)
  else
    match SupervisorReviewSerializer_validate db data with
    | inr (field, message) => (HTTP_400_BAD_REQUEST field message, db)
    | inl (inspection, validated_data) =>
        match get Task.id (Inspection.task inspection) (tasks db) with
        | None => (HTTP_500_INTERNAL_SERVER_ERROR, db)
        | Some task =>
            (HTTP_201_CREATED,
             SupervisorReviewViewSet_perform_create db user inspection task
               validated_data now)
        end
    end.

(** ** The workflow as one transition function *)

Inductive Transition :=
| Start (pk : Z)
| End (pk : Z)
| QaDecision (data : DecisionRequest)
| TesterDecision (data : DecisionRequest)
| SupervisorDecision (data : SupervisorRequest).

Definition step (db : DB) (user : User.t) (now : Z) (tr : Transition) : Response * DB :=
  match tr with
  | Start pk => start db user pk now
  | End pk => end_ db user pk now
  | QaDecision data => InspectionViewSet_create db user data now
  | TesterDecision data => TesterReviewViewSet_create db user data now
  | SupervisorDecision data => SupervisorReviewViewSet_create db user data now
  end.

(** The status of the task of key [pk], read from the table. *)
Definition status_of (db : DB) (pk : Z) : option TaskStatus.t :=
  option_map Task.status (get Task.id pk (tasks db)).

Definition device_status_of (db : DB) (pk : Z) : option DeviceStatus.t :=
  option_map Device.current_status (get Device.id pk (devices db)).

(* ===================================================================== *)
(** * metrics/calculations.py *)
(* ===================================================================== *)

(** [settings.TOTAL_AVAILABLE_TIME_SECONDS]: an 8-hour shift. *)
Definition TOTAL_AVAILABLE_TIME_SECONDS : Z := 28800.

Module TechnicianMetrics.
Record t := mk {
  productivity : Py.float;
  average_efficiency : Py.float;
  utilization : Py.float;
  tasks_completed : Z;
  date : Z
}.
End TechnicianMetrics.

(** [Sum(column)] of an aggregate: NULL values are skipped, and the sum of no
    value is NULL. *)
Definition Sum (column : list (option Z)) : option Z :=
  fold_left
    (fun acc v =>
       match v with
       | None => acc
       | Some x => match acc with
                   | None => Some x
                   | Some a => Some (a + x)
                   end
       end)
    column None.

(** [Task.Meta.ordering = ['-created_at']]: the newest first; rows of one
    timestamp keep the order of the table. *)
Fixpoint insert_newest (t : Task.t) (sorted : list Task.t) : list Task.t :=
  match sorted with
  | [] => [t]
  | u :: rest =>
      if Task.created_at u <=? Task.created_at t
      then t :: u :: rest
      else u :: insert_newest t rest
  end.

Definition newest_first (ts : list Task.t) : list Task.t :=
  fold_right insert_newest [] ts.

Section Metrics.

(** The lookup [end_time__date]: the calendar day (a day number) on which a
    timestamp falls in the time zone of the settings. *)
Variable date_of : Z -> Z.

(** [Task.objects.filter(technician_id=..., status='done',
    end_time__date=target_date)], in the default ordering of the model. *)
Definition completed_tasks (db : DB) (technician_id target_date : Z) : list Task.t :=
  newest_first
    (filter
       (fun t =>
          match Task.technician t with
          | Some uid => uid =? technician_id
          | None => false
          end
          && TaskStatus.eqb (Task.status t) TaskStatus.done
          && match Task.end_time t with
             | Some ended => date_of ended =? target_date
             | None => false
             end)
       (tasks db)).

(** The loop that collects the per-task efficiencies. *)
Definition efficiencies_of (completed : list Task.t) : list Py.float :=
  flat_map
    (fun task =>
       let std_sec := Py.or_int (Some (Task.standard_time_seconds task)) 0 in
       let act_sec := Py.or_int (Task.actual_time_seconds task) 0 in
       if 0 <? act_sec
       then [Py.fmul (Py.truediv std_sec act_sec) (Py.to_float 100)]
       else [])
    completed.

Definition calculate_technician_metrics (db : DB) (technician_id target_date : Z)
  : TechnicianMetrics.t :=
  let completed := completed_tasks db technician_id target_date in
  match completed with
  | [] =>
      TechnicianMetrics.mk (Py.to_float 0) (Py.to_float 0) (Py.to_float 0) 0 target_date
  | _ :: _ =>
      (* 1. totals *)
      let total_standard_seconds :=
        Py.or_int (Sum (map (fun t => Some (Task.standard_time_seconds t)) completed)) 0 in
      let total_actual_seconds :=
        Py.or_int (Sum (map Task.actual_time_seconds completed)) 0 in
      (* 2. productivity and utilization *)
      let productivity :=
        if 0 <? TOTAL_AVAILABLE_TIME_SECONDS
        then Py.fmul (Py.truediv total_standard_seconds TOTAL_AVAILABLE_TIME_SECONDS)
                     (Py.to_float 100)
        else Py.to_float 0 in
      let utilization :=
        if 0 <? TOTAL_AVAILABLE_TIME_SECONDS
        then Py.fmul (Py.truediv total_actual_seconds TOTAL_AVAILABLE_TIME_SECONDS)
                     (Py.to_float 100)
        else Py.to_float 0 in
      (* 3. average efficiency *)
      let efficiencies := efficiencies_of completed in
      let average_efficiency :=
        match efficiencies with
        | [] => Py.to_float 0
        | _ :: _ => Py.fdiv_int (Py.sum efficiencies) (Z.of_nat (List.length efficiencies))
        end in
      TechnicianMetrics.mk
        (Py.round productivity 2)
        (Py.round average_efficiency 2)
        (Py.round utilization 2)
        (Z.of_nat (List.length efficiencies))
        target_date
  end.

End Metrics.

(* ===================================================================== *)
(** * Facts about the encoding *)
(* ===================================================================== *)

Open Scope list_scope.
Open Scope Z_scope.

Lemma role_eqb_eq (a b : Role.t) : Role.eqb a b = true <-> a = b.
Proof. unfold Role.eqb. destruct (Role.eq_dec a b); split; congruence. Qed.

Lemma task_type_eqb_eq (a b : TaskType.t) : TaskType.eqb a b = true <-> a = b.
Proof. unfold TaskType.eqb. destruct (TaskType.eq_dec a b); split; congruence. Qed.

Lemma task_status_eqb_eq (a b : TaskStatus.t) : TaskStatus.eqb a b = true <-> a = b.
Proof. unfold TaskStatus.eqb. destruct (TaskStatus.eq_dec a b); split; congruence. Qed.

Lemma task_status_eqb_neq (a b : TaskStatus.t) : TaskStatus.eqb a b = false <-> a <> b.
Proof. unfold TaskStatus.eqb. destruct (TaskStatus.eq_dec a b); split; congruence. Qed.

Lemma decision_eqb_eq (a b : Decision.t) : Decision.eqb a b = true <-> a = b.
Proof. unfold Decision.eqb. destruct (Decision.eq_dec a b); split; congruence. Qed.

(** Every role is among those [IsTechnicianOrAll] lists. *)
Lemma technician_or_all_permits (user : User.t) :
  has_permission IsTechnicianOrAll user = true.
Proof.
  unfold has_permission. destruct (User.is_superuser user); [reflexivity|].
  destruct (User.role user); reflexivity.
Qed.

(** ** Tables *)

Section Tables.
Context {A : Type}.
Variable pk_of : A -> Z.

Lemma get_in pk rows row :
  get pk_of pk rows = Some row -> In row rows /\ pk_of row = pk.
Proof.
  unfold get. intros H. apply find_some in H. now rewrite Z.eqb_eq in H.
Qed.

Lemma get_none pk rows :
  get pk_of pk rows = None <-> ~ In pk (map pk_of rows).
Proof.
  unfold get. induction rows as [|r rows IH]; simpl.
  - tauto.
  - destruct (Z.eqb_spec (pk_of r) pk) as [E | N].
    + split; [discriminate | tauto].
    + rewrite IH. tauto.
Qed.

Lemma update_length pk f rows : List.length (update pk_of pk f rows) = List.length rows.
Proof. unfold update. apply length_map. Qed.

(** A rewrite that keeps the key keeps the column of keys. *)
Lemma update_keys pk f rows :
  (forall r, pk_of (f r) = pk_of r) ->
  map pk_of (update pk_of pk f rows) = map pk_of rows.
Proof.
  intros Hf. unfold update. rewrite map_map. apply map_ext.
  intros r. destruct (pk_of r =? pk); auto.
Qed.

(** Reading a row back after a save. *)
Lemma get_update pk pk' f rows :
  (forall r, pk_of (f r) = pk_of r) ->
  get pk_of pk (update pk_of pk' f rows)
  = if pk =? pk' then option_map f (get pk_of pk rows) else get pk_of pk rows.
Proof.
  intros Hf. unfold get, update. induction rows as [|r rows IH]; simpl.
  - now destruct (pk =? pk').
  - destruct (Z.eqb_spec (pk_of r) pk') as [E | N].
    + rewrite Hf. destruct (Z.eqb_spec (pk_of r) pk) as [E' | N'].
      * subst. now rewrite Z.eqb_refl.
      * exact IH.
    + destruct (Z.eqb_spec (pk_of r) pk) as [E' | N'].
      * subst. destruct (Z.eqb_spec (pk_of r) pk'); [contradiction | reflexivity].
      * exact IH.
Qed.

(** A save on a key no row carries changes nothing. *)
Lemma update_absent pk f rows :
  ~ In pk (map pk_of rows) -> update pk_of pk f rows = rows.
Proof.
  unfold update. induction rows as [|r rows IH]; simpl; intros H.
  - reflexivity.
  - destruct (Z.eqb_spec (pk_of r) pk) as [E | N]; [tauto|].
    f_equal. apply IH. tauto.
Qed.

(** The key given to a new row is larger than every key in the table. *)
Lemma next_pk_above ids : Forall (fun i => i < next_pk ids) ids.
Proof.
  unfold next_pk. induction ids as [|i ids IH]; constructor; cbn [fold_right].
  - lia.
  - eapply Forall_impl; [|exact IH]. cbn beta. intros; lia.
Qed.

Lemma next_pk_fresh ids : ~ In (next_pk ids) ids.
Proof.
  intros H. pose proof (next_pk_above ids) as F.
  rewrite Forall_forall in F. specialize (F _ H). lia.
Qed.

Lemma next_pk_positive ids : 0 < next_pk ids.
Proof.
  unfold next_pk.
  induction ids as [|i ids IH]; cbn [fold_right]; lia.
Qed.
End Tables.

(** ** Rounding to decimals *)

(** [round_half_even] returns an integer nearest to the quotient. *)
Lemma round_half_even_nearest (num den : Z) :
  0 < den ->
  2 * Z.abs (Py.round_half_even num den * den - num) <= den.
Proof.
  intros Hden. unfold Py.round_half_even.
  pose proof (Z.div_mod num den ltac:(lia)) as Hdm.
  pose proof (Z.mod_pos_bound num den Hden) as Hr.
  set (q := num / den) in *. set (r := num mod den) in *.
  assert (Hq : q * den = num - r) by lia.
  assert (Hq1 : (q + 1) * den = num - r + den) by lia.
  destruct (Z.compare_spec (2 * r) den) as [E | L | G].
  - destruct (Z.even q); [rewrite Hq | rewrite Hq1]; lia.
  - rewrite Hq. lia.
  - rewrite Hq1. lia.
Qed.

(** On a tie the even neighbour is chosen. *)
Lemma round_half_even_tie (num den : Z) :
  0 < den -> 2 * (num mod den) = den ->
  Z.even (Py.round_half_even num den) = true.
Proof.
  intros Hden Htie. unfold Py.round_half_even.
  rewrite Htie, Z.compare_refl.
  destruct (Z.even (num / den)) eqn:E; [exact E|].
  rewrite Z.even_add, E. reflexivity.
Qed.

(** [round(x, 2)] of a finite double is a number of hundredths: the integer
    nearest to a hundred times the exact value of [x], over 100. *)
Lemma round_2_hundredths (s : bool) (m : positive) (e : Z) :
  Py.round (S754_finite s m e) 2
  = match Py.scaled_digits m e 2 with
    | Z0 => S754_zero s
    | n => Py.fdiv (Py.of_int (if s then - n else n)) (Py.of_int 100)
    end.
Proof. reflexivity. Qed.

Lemma scaled_digits_nearest (m : positive) (k : positive) :
  2 * Z.abs (Py.scaled_digits m (Zneg k) 2 * 2 ^ Zpos k - Zpos m * 100) <= 2 ^ Zpos k.
Proof.
  unfold Py.scaled_digits. change (10 ^ 2) with 100.
  apply round_half_even_nearest. apply Z.pow_pos_nonneg; lia.
Qed.

Example round_ties_to_even :
  Py.round (Py.truediv 1 8) 2 = Py.hundredths 12
  /\ Py.round (Py.truediv 3 8) 2 = Py.hundredths 38
  /\ Py.round (Py.truediv 2 3) 2 = Py.hundredths 67.
Proof. repeat split; vm_compute; reflexivity. Qed.

(* ===================================================================== *)
(** * Efficiency is a derived read *)
(* ===================================================================== *)

(** The task of the scenario: standard 600 s, done in 500 s. *)
Definition task_600_500 : Task.t :=
  Task.mk 1 (Some 1) 1 1 (Some 1) "A" 600 TaskType.technician
    (Some 0) (Some 500000000) (Some 500) TaskStatus.pending_qa 0 500000000.

Example efficiency_600_over_500 :
  Task.calculate_efficiency task_600_500 = Some (Py.to_float 120).
Proof. vm_compute. reflexivity. Qed.

Example efficiency_undefined_without_time :
  Task.calculate_efficiency
    (Task.mk 1 None 1 1 None "A" 600 TaskType.technician None None None
       TaskStatus.available 0 0) = None
  /\ Task.calculate_efficiency
       (Task.mk 1 None 1 1 None "A" 600 TaskType.technician None None (Some 0)
          TaskStatus.pending_qa 0 0) = None
  /\ Task.calculate_efficiency
       (Task.mk 1 None 1 1 None "A" 600 TaskType.technician None None (Some (-3))
          TaskStatus.pending_qa 0 0) = None.
Proof. repeat split; vm_compute; reflexivity. Qed.

(** C3. The efficiency of a task is defined exactly when [actual_time_seconds]
    is present and positive; it is then [round(standard / actual * 100, 2)];
    the serializer has no stored efficiency to read: what it renders is
    [calculate_efficiency] of the task at hand, a function of the two time
    columns alone. *)
Theorem efficiency_is_derived (t : Task.t) :
  (Task.calculate_efficiency t <> None
     <-> exists actual, Task.actual_time_seconds t = Some actual /\ 0 < actual)
  /\ (forall actual,
        Task.actual_time_seconds t = Some actual -> 0 < actual ->
        Task.calculate_efficiency t
        = Some (Py.round
                  (Py.fmul (Py.truediv (Task.standard_time_seconds t) actual)
                           (Py.to_float 100))
                  2))
  /\ (forall db, TaskData.efficiency (TaskSerializer db t) = Task.calculate_efficiency t)
  /\ (forall t',
        Task.standard_time_seconds t' = Task.standard_time_seconds t ->
        Task.actual_time_seconds t' = Task.actual_time_seconds t ->
        forall db db',
          TaskData.efficiency (TaskSerializer db' t')
          = TaskData.efficiency (TaskSerializer db t)).
Proof.
  unfold Task.calculate_efficiency, Py.fmul_int.
  repeat split.
  - destruct (Task.actual_time_seconds t) as [a|]; [|congruence].
    intros H. exists a. split; [reflexivity|].
    destruct (Z.ltb_spec 0 a); [assumption|].
    rewrite andb_false_r in H. congruence.
  - intros (a & -> & Ha).
    replace (a =? 0) with false by (symmetry; apply Z.eqb_neq; lia).
    replace (0 <? a) with true by (symmetry; apply Z.ltb_lt; lia).
    discriminate.
  - intros a -> Ha.
    replace (a =? 0) with false by (symmetry; apply Z.eqb_neq; lia).
    replace (0 <? a) with true by (symmetry; apply Z.ltb_lt; lia).
    reflexivity.
  - intros t' Hs Ha db db'. cbn [TaskSerializer TaskData.efficiency].
    unfold get_efficiency, Task.calculate_efficiency. now rewrite Hs, Ha.
Qed.

(* ===================================================================== *)
(** * The fan-out of a job order *)
(* ===================================================================== *)

Example format_0d_examples :
  map (Py.format_0d 4) [1; 12; 999; 1000; 9999; 10000; 123456]
  = ["0001"; "0012"; "0999"; "1000"; "9999"; "10000"; "123456"].
Proof. vm_compute. reflexivity. Qed.

(** ** [order_by] *)

Lemma insert_by_order_perm (p : Process.t) (l : list Process.t) :
  Permutation (insert_by_order p l) (p :: l).
Proof.
  induction l as [|q l IH]; simpl.
  - apply Permutation_refl.
  - destruct (Process.order p <=? Process.order q).
    + apply Permutation_refl.
    + eapply perm_trans; [apply perm_skip, IH | apply perm_swap].
Qed.

Lemma order_by_order_perm (l : list Process.t) : Permutation (order_by_order l) l.
Proof.
  induction l as [|p l IH]; simpl.
  - apply perm_nil.
  - eapply perm_trans; [apply insert_by_order_perm | apply perm_skip, IH].
Qed.

(** The rows come out in non-decreasing [order]. *)
Inductive ordered : list Process.t -> Prop :=
| ordered_nil : ordered []
| ordered_one p : ordered [p]
| ordered_cons p q l :
    Process.order p <= Process.order q -> ordered (q :: l) -> ordered (p :: q :: l).

Lemma insert_by_order_ordered (p : Process.t) (l : list Process.t) :
  ordered l -> ordered (insert_by_order p l).
Proof.
  induction 1 as [|q|q r l Hqr Hl IH]; simpl.
  - constructor.
  - destruct (Z.leb_spec (Process.order p) (Process.order q));
      constructor; (lia || constructor).
  - destruct (Z.leb_spec (Process.order p) (Process.order q)).
    + constructor; [lia|]. now constructor.
    + simpl in IH. destruct (Z.leb_spec (Process.order p) (Process.order r)).
      * constructor; [lia|]. exact IH.
      * constructor; [lia|]. exact IH.
Qed.

Lemma order_by_order_ordered (l : list Process.t) : ordered (order_by_order l).
Proof.
  induction l as [|p l IH]; simpl.
  - constructor.
  - now apply insert_by_order_ordered.
Qed.

Lemma processes_of_job_in (db : DB) (job : Z) (p : Process.t) :
  In p (processes_of_job db job) <-> In p (processes db) /\ Process.job p = job.
Proof.
  unfold processes_of_job. split.
  - intros H. apply (Permutation_in _ (order_by_order_perm _)) in H.
    apply filter_In in H. now rewrite Z.eqb_eq in H.
  - intros [H E]. apply (Permutation_in _ (Permutation_sym (order_by_order_perm _))).
    apply filter_In. now rewrite Z.eqb_eq.
Qed.



(** ** [bulk_create] *)

Section BulkCreate.
Context {A : Type}.
Variable pk_of : A -> Z.

(** Unsaved objects: each takes the key it is given. *)
Definition takes_key (new : Z -> A) : Prop := forall pk, pk_of (new pk) = pk.






End BulkCreate.

(** ** Devices and tasks of a new job order *)


Lemma new_task_takes_key (instance : JobOrder.t) (now : Z) (l : list (Device.t * Process.t)) :
  Forall (takes_key Task.id) (map (fun dp => new_task instance now (fst dp) (snd dp)) l).
Proof. apply Forall_forall. intros f H. apply in_map_iff in H. destruct H as (i & <- & _). now intros pk. Qed.


Section Pairs.
Variable instance : JobOrder.t.
Variable now : Z.





Lemma block_length (procs : list Process.t) (devs : list Device.t) :
  List.length (flat_map (fun d' => map (new_task instance now d') procs) devs)
  = (List.length devs * List.length procs)%nat.
Proof.
  induction devs as [|d devs IH]; simpl; [reflexivity|].
  now rewrite length_app, length_map, IH.
Qed.
End Pairs.



(** ** Serial numbers *)



















(** The receiver leaves the database alone when the job has no process. *)
Lemma fan_out_no_process (db : DB) (instance : JobOrder.t) (job now : Z) :
  JobOrder.job instance = Some job ->
  (forall p, In p (processes db) -> Process.job p <> job) ->
  create_devices_and_tasks_for_job_order db instance true now = Returns db.
Proof.
  intros Hjob Hnone. unfold create_devices_and_tasks_for_job_order. rewrite Hjob.
  destruct (processes_of_job db job) as [|p ps] eqn:E; [reflexivity|].
  assert (H : In p (processes_of_job db job)) by (rewrite E; now left).
  apply processes_of_job_in in H. destruct H as [H1 H2]. now apply Hnone in H1.
Qed.

(** A job order with one device for a job of two processes, [B] entered
    before [A] but ordered after it. *)
Definition order_JO7 : JobOrder.t := JobOrder.mk 1 (Some 1) "JO-7" "Seven" 1 None.

Definition db_two_processes : DB :=
  mkDB []
    [Process.mk 1 1 "B" 300 TaskType.quality 2;
     Process.mk 2 1 "A" 600 TaskType.technician 1;
     Process.mk 3 2 "Other job" 60 TaskType.tester 1]
    [order_JO7] [] [] [] [] [] [].

Example fan_out_scenario :
  exists db,
    create_devices_and_tasks_for_job_order db_two_processes order_JO7 true 0 = Returns db
    /\ map Device.serial_number (devices db) = ["JO-7-0001"%string]
    /\ map (fun t => (Task.operation_name t, Task.standard_time_seconds t, Task.status t))
           (tasks db)
       = [("A"%string, 600, TaskStatus.available); ("B"%string, 300, TaskStatus.available)].
Proof. eexists. split; [vm_compute; reflexivity|]. vm_compute. split; reflexivity. Qed.





(** A job order entered without a job. *)
Definition order_without_job : JobOrder.t := JobOrder.mk 2 None "JO-8" "Eight" 3 None.

(** C10. A job order without a job gets no device and no task: the receiver
    returns, with the database as it found it, as it does for a job that has
    no process. *)
Theorem fan_out_without_job (db : DB) (instance : JobOrder.t) (created : bool) (now : Z) :
  JobOrder.job instance = None ->
  create_devices_and_tasks_for_job_order db instance created now = Returns db
  /\ (forall db',
        create_devices_and_tasks_for_job_order db instance created now = Returns db' ->
        devices db' = devices db /\ tasks db' = tasks db)
  /\ (forall e, create_devices_and_tasks_for_job_order db instance created now <> Raises e)
  /\ forall job other,
       JobOrder.job other = Some job ->
       (forall p, In p (processes db) -> Process.job p <> job) ->
       create_devices_and_tasks_for_job_order db instance created now
       = create_devices_and_tasks_for_job_order db other true now.
Proof.
  intros Hjob.
  assert (E : create_devices_and_tasks_for_job_order db instance created now = Returns db).
  { unfold create_devices_and_tasks_for_job_order. rewrite Hjob. now destruct created. }
  rewrite E. split; [reflexivity|]. split; [|split].
  - intros db' H. injection H as <-. split; reflexivity.
  - discriminate.
  - intros job other Hother Hnone. symmetry.
    now apply fan_out_no_process with (job := job).
Qed.

Lemma fan_out_without_job_witness :
  JobOrder.job order_without_job = None
  /\ create_devices_and_tasks_for_job_order db_two_processes order_without_job true 0
     = Returns db_two_processes.
Proof.
  split; [reflexivity|].
  exact (proj1 (fan_out_without_job db_two_processes order_without_job true 0 eq_refl)).
Defined.

(* ===================================================================== *)
(** * Notifications *)
(* ===================================================================== *)

(** What a round of notifications adds: one row per recipient, in order. *)
Lemma notify_each_adds (db : DB) (now : Z) (recipients : list User.t)
      (type message : string) (payload : list (string * JSON)) :
  exists new,
    notify_each db now recipients type message payload
    = set_notifications db (notifications db ++ new)
    /\ map Notification.user new = map User.id recipients
    /\ Forall (fun n => Notification.type n = type
                        /\ Notification.message n = message
                        /\ Notification.payload n = payload
                        /\ Notification.read n = false
                        /\ Notification.created_at n = now) new.
Proof.
  revert db. induction recipients as [|u us IH]; intros db.
  - exists []. rewrite app_nil_r. destruct db. repeat split. constructor.
  - cbn [notify_each fold_left].
    destruct (IH (create_notification db now (User.id u) type message payload))
      as (new & E & Hu & Hf).
    unfold notify_each in E. rewrite E.
    eexists (_ :: new). split; [|split].
    + unfold create_notification. cbn. rewrite <- app_assoc. reflexivity.
    + cbn. now rewrite Hu.
    + constructor; [cbn; auto | exact Hf].
Qed.

(** Only the table of notifications changes. *)
Lemma notify_each_frame (db : DB) (now : Z) (recipients : list User.t)
      (type message : string) (payload : list (string * JSON)) :
  notify_each db now recipients type message payload
  = set_notifications db
      (notifications (notify_each db now recipients type message payload)).
Proof.
  destruct (notify_each_adds db now recipients type message payload) as (new & E & _).
  rewrite E. reflexivity.
Qed.

(** How often a user is among the recipients of the new rows. *)
Definition received (uid : Z) (rows : list Notification.t) : nat :=
  List.length (filter (fun n => Notification.user n =? uid) rows).

Lemma received_app (uid : Z) (l1 l2 : list Notification.t) :
  received uid (l1 ++ l2) = (received uid l1 + received uid l2)%nat.
Proof. unfold received. now rewrite filter_app, length_app. Qed.

(** How often a key occurs in a list of keys. *)
Definition occurrences (uid : Z) (ids : list Z) : nat :=
  List.length (filter (fun k => k =? uid) ids).

Lemma occurrences_app (uid : Z) (l1 l2 : list Z) :
  occurrences uid (l1 ++ l2) = (occurrences uid l1 + occurrences uid l2)%nat.
Proof. unfold occurrences. now rewrite filter_app, length_app. Qed.

Lemma received_occurrences (uid : Z) (rows : list Notification.t) :
  received uid rows = occurrences uid (map Notification.user rows).
Proof.
  unfold received, occurrences. induction rows as [|n rows IH]; cbn; [reflexivity|].
  destruct (Notification.user n =? uid); cbn; now rewrite IH.
Qed.

Lemma occurrences_absent (uid : Z) (g : User.t -> bool) (ws : list User.t) :
  ~ In uid (map User.id ws) ->
  occurrences uid (map User.id (filter g ws)) = 0%nat.
Proof.
  unfold occurrences. induction ws as [|w ws IH]; intros Hw; [reflexivity|].
  cbn [filter]. cbn in Hw. destruct (g w); cbn.
  - destruct (Z.eqb_spec (User.id w) uid); [tauto|]. apply IH. tauto.
  - apply IH. tauto.
Qed.

(** With unique user keys, a selection of the users holds each selected user
    once and nobody else. *)
Lemma occurrences_selected (g : User.t -> bool) (us : list User.t) (u : User.t) :
  NoDup (map User.id us) -> In u us ->
  occurrences (User.id u) (map User.id (filter g us)) = if g u then 1%nat else 0%nat.
Proof.
  induction us as [|v vs IH]; intros Hnd Hin; [destruct Hin|].
  inversion Hnd as [|x xs Hv Hvs]; subst. cbn [filter].
  destruct Hin as [-> | Hin].
  - destruct (g u); cbn.
    + unfold occurrences. cbn. rewrite Z.eqb_refl. cbn.
      f_equal. now apply occurrences_absent.
    + now apply occurrences_absent.
  - assert (Hne : User.id v <> User.id u).
    { intros E. apply Hv. rewrite E. now apply in_map. }
    destruct (g v); cbn.
    + unfold occurrences. cbn.
      destruct (Z.eqb_spec (User.id v) (User.id u)); [contradiction|]. now apply IH.
    + now apply IH.
Qed.

(* ===================================================================== *)
(** * Looking a task up *)
(* ===================================================================== *)

Lemma find_all_false {A : Type} (f : A -> bool) (l : list A) :
  (forall x, In x l -> f x = false) -> find f l = None.
Proof.
  induction l as [|a l IH]; intros H; cbn; [reflexivity|].
  rewrite (H a) by now left. apply IH. intros x Hx. apply H. now right.
Qed.

(** With unique keys, [get_object] is the row of that key when the user may
    see it, and nothing otherwise. *)
Lemma get_object_row (db : DB) (user : User.t) (pk : Z) (task : Task.t) :
  NoDup (map Task.id (tasks db)) ->
  get Task.id pk (tasks db) = Some task ->
  get_object db user pk = if visible_to user task then Some task else None.
Proof.
  unfold get_object, get. induction (tasks db) as [|r rows IH]; intros Hnd Hget.
  - discriminate.
  - inversion Hnd as [|x xs Hr Hrows]; subst. cbn [find] in *.
    destruct (Z.eqb_spec (Task.id r) pk) as [E | N].
    + injection Hget as ->. cbn [andb]. destruct (visible_to user task); [reflexivity|].
      apply find_all_false. intros t Ht. apply andb_false_iff. left. apply Z.eqb_neq.
      intros E'. apply Hr. rewrite E, <- E'. now apply in_map.
    + cbn [andb]. now apply IH.
Qed.

(** Without a row of that key there is nothing to find. *)
Lemma get_object_absent (db : DB) (user : User.t) (pk : Z) :
  get Task.id pk (tasks db) = None -> get_object db user pk = None.
Proof.
  intros H. apply find_all_false. intros t Ht. apply andb_false_iff. left.
  apply Z.eqb_neq. intros E. apply get_none in H. apply H. rewrite <- E. now apply in_map.
Qed.

(** What [get_object] finds is a row of the table with that key, visible to
    the user. *)
Lemma get_object_found (db : DB) (user : User.t) (pk : Z) (task : Task.t) :
  get_object db user pk = Some task ->
  In task (tasks db) /\ Task.id task = pk /\ visible_to user task = true.
Proof.
  unfold get_object. intros H. apply find_some in H. destruct H as [Hin H].
  apply andb_true_iff in H. rewrite Z.eqb_eq in H. tauto.
Qed.

(* ===================================================================== *)
(** * Whole seconds of a time difference *)
(* ===================================================================== *)

(** [int(timedelta.total_seconds())] goes through a double.  The lemmas below
    follow the division of [SpecFloat] for a dividend under [2^52] and the
    divisor [10**6]: the quotient is computed on 53 or 54 bits, at most two of
    them are rounded away, and the whole part of the result is that of the
    exact quotient. *)

Lemma digits2_size p : digits2_pos p = Pos.size p.
Proof. induction p; simpl; congruence. Qed.

Lemma digits2_bounds p :
  2 ^ (Zpos (digits2_pos p) - 1) <= Zpos p < 2 ^ Zpos (digits2_pos p).
Proof.
  rewrite digits2_size. split.
  - pose proof (Pos.size_le p) as H.
    assert (Hp : (Zpos (2 ^ Pos.size p) <= Zpos p~0)) by exact H.
    rewrite Pos2Z.inj_pow in Hp.
    replace (Zpos (Pos.size p)) with (Zpos (Pos.size p) - 1 + 1) in Hp by lia.
    rewrite Z.pow_add_r in Hp by lia. lia.
  - pose proof (Pos.size_gt p) as H.
    assert (Hp : (Zpos p < Zpos (2 ^ Pos.size p))) by exact H.
    now rewrite Pos2Z.inj_pow in Hp.
Qed.

Lemma digits2_unique p d :
  2 ^ (d - 1) <= Zpos p < 2 ^ d -> 1 <= d -> Zpos (digits2_pos p) = d.
Proof.
  intros [Hlo Hhi] Hd. destruct (digits2_bounds p) as [Blo Bhi].
  set (D := Zpos (digits2_pos p)) in *.
  assert (HD : 1 <= D) by (unfold D; lia).
  destruct (Z.lt_trichotomy D d) as [Hlt | [Heq | Hgt]]; [ | exact Heq | ].
  - assert (2 ^ D <= 2 ^ (d - 1)) by (apply Z.pow_le_mono_r; lia). lia.
  - assert (2 ^ d <= 2 ^ (D - 1)) by (apply Z.pow_le_mono_r; lia). lia.
Qed.

Lemma shr_fexp_53 m e l :
  2 ^ 52 <= m < 2 ^ 53 -> -1074 <= e ->
  shr_fexp 53 1024 m e l = (shr_record_of_loc m l, e).
Proof.
  intros Hm He. unfold shr_fexp.
  destruct m as [|p|p]; try lia.
  cbn [Zdigits2]. rewrite (digits2_unique p 53) by (change (53 - 1) with 52; lia).
  unfold fexp, emin.
  replace (Z.max (53 + e - 53) (3 - 1024 - 53) - e) with 0 by lia.
  reflexivity.
Qed.

Lemma shr_fexp_54 m e l :
  2 ^ 53 <= m < 2 ^ 54 -> -1074 <= e ->
  shr_fexp 53 1024 m e l = (shr_1 (shr_record_of_loc m l), e + 1).
Proof.
  intros Hm He. unfold shr_fexp.
  destruct m as [|p|p]; try lia.
  cbn [Zdigits2]. rewrite (digits2_unique p 54) by (change (54 - 1) with 53; lia).
  unfold fexp, emin.
  replace (Z.max (54 + e - 53) (3 - 1024 - 53) - e) with 1 by lia.
  reflexivity.
Qed.

Lemma shr_m_of_loc m l : shr_m (shr_record_of_loc m l) = m.
Proof. destruct l as [|[]]; reflexivity. Qed.

Lemma shr_1_half mrs : 0 <= shr_m mrs -> shr_m (shr_1 mrs) = shr_m mrs / 2.
Proof.
  destruct mrs as [m r s]. cbn [shr_m shr_1]. intros Hm.
  destruct m as [|p|p]; try lia; [reflexivity|].
  destruct p as [p|p|]; cbn [shr_m].
  - rewrite Pos2Z.inj_xI. apply Z.div_unique with (r := 1); lia.
  - rewrite Pos2Z.inj_xO. apply Z.div_unique with (r := 0); lia.
  - reflexivity.
Qed.

Lemma round_nearest_even_bounds m l :
  m <= round_nearest_even m l <= m + 1.
Proof.
  unfold round_nearest_even. destruct l as [|[]]; try destruct (Z.even m); lia.
Qed.

(** Rounding a quotient of 53 or 54 bits: at most two bits are dropped and the
    mantissa moves by at most one unit in the last place kept. *)
Lemma binary_round_aux_bounds sx mx ex lx :
  2 ^ 52 <= mx < 2 ^ 54 -> -1074 <= ex <= 900 ->
  exists M c,
    binary_round_aux 53 1024 sx mx ex lx = S754_finite sx M (ex + c)
    /\ 0 <= c <= 2
    /\ mx / 2 ^ c <= Zpos M
    /\ Zpos M * 2 ^ c <= mx + 2.
Proof.
  intros Hmx Hex.
  assert (P52 : 2 ^ 52 = 4503599627370496) by reflexivity.
  assert (P53 : 2 ^ 53 = 9007199254740992) by reflexivity.
  assert (P54 : 2 ^ 54 = 18014398509481984) by reflexivity.
  (* the mantissa after the first shift and the number of bits it dropped *)
  assert (Hfirst : exists mrs c1,
             shr_fexp 53 1024 mx ex lx = (mrs, ex + c1)
             /\ 0 <= c1 <= 1 /\ shr_m mrs = mx / 2 ^ c1
             /\ 2 ^ 52 <= shr_m mrs < 2 ^ 53).
  { destruct (Z_lt_le_dec mx (2 ^ 53)) as [Hlt | Hge].
    - exists (shr_record_of_loc mx lx), 0.
      rewrite shr_fexp_53 by lia. rewrite shr_m_of_loc, Z.add_0_r.
      change (2 ^ 0) with 1. rewrite Z.div_1_r. repeat split; lia.
    - exists (shr_1 (shr_record_of_loc mx lx)), 1.
      rewrite shr_fexp_54 by lia.
      rewrite shr_1_half by (rewrite shr_m_of_loc; lia).
      rewrite shr_m_of_loc. change (2 ^ 1) with 2.
      assert (mx / 2 < 2 ^ 53) by (apply Z.div_lt_upper_bound; lia).
      assert (2 ^ 52 <= mx / 2) by (apply Z.div_le_lower_bound; lia).
      repeat split; lia. }
  destruct Hfirst as (mrs & c1 & E1 & Hc1 & Hm1 & Hr1).
  unfold binary_round_aux. rewrite E1.
  pose proof (round_nearest_even_bounds (shr_m mrs) (loc_of_shr_record mrs)) as Hrne.
  set (M1 := round_nearest_even (shr_m mrs) (loc_of_shr_record mrs)) in *.
  assert (Hdiv : mx / 2 ^ c1 * 2 ^ c1 <= mx).
  { rewrite Z.mul_comm. apply Z.mul_div_le.
    assert (c1 = 0 \/ c1 = 1) as [-> | ->] by lia; reflexivity. }
  destruct (Z_lt_le_dec M1 (2 ^ 53)) as [Hlt | Hge].
  - rewrite shr_fexp_53 by lia. cbn [shr_record_of_loc shr_m].
    destruct M1 as [|M|M] eqn:EM; try lia.
    replace (ex + c1 <=? 1024 - 53) with true by (symmetry; apply Z.leb_le; lia).
    exists M, c1. repeat split; try lia.
    assert (c1 = 0 \/ c1 = 1) as [-> | ->] by lia.
    + change (2 ^ 0) with 1 in *. lia.
    + change (2 ^ 1) with 2 in *.
      assert (mx < 2 * (mx / 2) + 2).
      { pose proof (Z.mod_pos_bound mx 2 ltac:(lia)).
        pose proof (Z.div_mod mx 2 ltac:(lia)). lia. }
      lia.
  - assert (EM1 : M1 = 2 ^ 53) by lia.
    rewrite shr_fexp_54 by lia. cbn [shr_record_of_loc].
    pose proof (shr_1_half {| shr_m := M1; shr_r := false; shr_s := false |}) as Hh.
    cbn [shr_m] in Hh. specialize (Hh ltac:(lia)).
    rewrite EM1 in *. rewrite Hh. change (2 ^ 53 / 2) with (Zpos 4503599627370496).
    replace (ex + c1 + 1 <=? 1024 - 53) with true by (symmetry; apply Z.leb_le; lia).
    exists 4503599627370496%positive, (c1 + 1).
    rewrite Z.add_assoc. split; [reflexivity|].
    split; [lia|].
    assert (c1 = 0 \/ c1 = 1) as [-> | ->] by lia.
    + change (2 ^ 0) with 1 in *. change (2 ^ (0 + 1)) with 2.
      rewrite Z.div_1_r in *.
      split; [apply Z.div_le_upper_bound; lia | lia].
    + change (2 ^ 1) with 2 in *. change (2 ^ (1 + 1)) with 4.
      assert (mx < 2 * (mx / 2) + 2).
      { pose proof (Z.mod_pos_bound mx 2 ltac:(lia)).
        pose proof (Z.div_mod mx 2 ltac:(lia)). lia. }
      split; [apply Z.div_le_upper_bound; lia | lia].
Qed.

Lemma digits2_le_52 p : Zpos p < 2 ^ 52 -> 1 <= Zpos (digits2_pos p) <= 52.
Proof.
  intros Hp. destruct (digits2_bounds p) as [Blo _]. split; [lia|].
  destruct (Z_le_gt_dec (Zpos (digits2_pos p)) 52) as [H | H]; [exact H|].
  assert (2 ^ 52 <= 2 ^ (Zpos (digits2_pos p) - 1)) by (apply Z.pow_le_mono_r; lia).
  lia.
Qed.

Lemma int_total_seconds_pos p sx :
  Zpos p < 2 ^ 52 ->
  Py.int (SFdiv 53 1024 (S754_finite sx p 0) (S754_finite false 1000000 0))
  = if sx then - (Zpos p / 1000000) else Zpos p / 1000000.
Proof.
  intros Hp.
  pose proof (digits2_le_52 p Hp) as HD.
  destruct (digits2_bounds p) as [Blo Bhi].
  unfold SFdiv, SFdiv_core_binary. cbn [Zdigits2].
  change (Zpos (digits2_pos 1000000)) with 20.
  set (D := Zpos (digits2_pos p)) in *.
  unfold fexp, emin.
  replace (Z.min (Z.max (D + 0 - (20 + 0) - 53) (3 - 1024 - 53)) (0 - 0)) with (D - 73) by lia.
  replace (0 - 0 - (D - 73)) with (73 - D) by lia.
  set (s := 73 - D) in *.
  assert (Hs : 21 <= s <= 72) by (unfold s; lia).
  assert (Hshift : match s with
                   | Z0 => Zpos p
                   | Zpos _ => Z.shiftl (Zpos p) s
                   | Zneg _ => 0
                   end = Zpos p * 2 ^ s).
  { destruct s; try lia. apply Z.shiftl_mul_pow2. lia. }
  rewrite Hshift.
  set (P := 2 ^ s) in *.
  assert (HP : 2 ^ 21 <= P) by (apply Z.pow_le_mono_r; lia).
  assert (HPD : P * 2 ^ (D - 1) = 2 ^ 72).
  { unfold P. rewrite <- Z.pow_add_r by lia. f_equal. unfold s. lia. }
  assert (HPD' : P * 2 ^ D = 2 ^ 73).
  { unfold P. rewrite <- Z.pow_add_r by lia. f_equal. unfold s. lia. }
  assert (P21 : 2 ^ 21 = 2097152) by reflexivity.
  assert (P72 : 2 ^ 72 = 4722366482869645213696) by reflexivity.
  assert (P73 : 2 ^ 73 = 9444732965739290427392) by reflexivity.
  assert (P52 : 2 ^ 52 = 4503599627370496) by reflexivity.
  assert (P54 : 2 ^ 54 = 18014398509481984) by reflexivity.
  assert (Hm'lo : 2 ^ 72 <= Zpos p * P).
  { rewrite <- HPD, (Z.mul_comm (Zpos p) P). apply Z.mul_le_mono_nonneg_l; lia. }
  assert (Hm'hi : Zpos p * P < 2 ^ 73).
  { rewrite <- HPD', (Z.mul_comm (Zpos p) P). apply Z.mul_lt_mono_pos_l; lia. }
  pose proof (Z.div_eucl_eq (Zpos p * P) 1000000 ltac:(lia)) as Heucl.
  pose proof (Z.mod_pos_bound (Zpos p * P) 1000000 ltac:(lia)) as Hmod.
  unfold Z.modulo in Hmod.
  destruct (Z.div_eucl (Zpos p * P) 1000000) as [q r].
  destruct (binary_round_aux_bounds (xorb sx false) q (D - 73) (new_location 1000000 r))
    as (M & c & EM & Hc & Hlo & Hhi); [lia | lia |].
  rewrite EM. rewrite xorb_false_r.
  pose proof (Z.div_mod (Zpos p) 1000000 ltac:(lia)) as Hk.
  pose proof (Z.mod_pos_bound (Zpos p) 1000000 ltac:(lia)) as Hkr.
  set (k := Zpos p / 1000000) in *.
  assert (HkP : 1000000 * (k * P) <= Zpos p * P).
  { rewrite Z.mul_assoc. apply Z.mul_le_mono_nonneg_r; lia. }
  assert (HkP' : Zpos p * P <= (1000000 * k + 999999) * P).
  { apply Z.mul_le_mono_nonneg_r; lia. }
  cbn [Py.int].
  destruct (D - 73 + c) as [|e|e] eqn:Ee; try lia.
  assert (HX : P = 2 ^ c * 2 ^ Zpos e).
  { unfold P. rewrite <- Z.pow_add_r by lia. f_equal. lia. }
  set (X := 2 ^ Zpos e) in *.
  assert (HXpos : 0 < X) by (apply Z.pow_pos_nonneg; lia).
  assert (Hq : q < (Zpos M + 1) * 2 ^ c).
  { assert (0 < 2 ^ c) by (apply Z.pow_pos_nonneg; lia).
    pose proof (Z.div_mod q (2 ^ c) ltac:(lia)).
    pose proof (Z.mod_pos_bound q (2 ^ c) ltac:(lia)). nia. }
  assert (Hres : Zpos M / X = k).
  { assert (c = 0 \/ c = 1 \/ c = 2) as [-> | [-> | ->]] by lia;
      [ change (2 ^ 0) with 1 in * | change (2 ^ 1) with 2 in * | change (2 ^ 2) with 4 in * ];
      (apply Z.le_antisymm;
       [ apply Z.lt_succ_r, Z.div_lt_upper_bound; [lia|]
       | apply Z.div_le_lower_bound; [lia|] ]);
      rewrite HX in *; nia. }
  rewrite Hres. reflexivity.
Qed.

Lemma int_total_seconds us :
  - 2 ^ 52 < us < 2 ^ 52 ->
  Py.int (Py.total_seconds us) = Z.quot us 1000000.
Proof.
  intros Hus. unfold Py.total_seconds, Py.truediv, Py.fdiv.
  destruct us as [|p|p].
  - reflexivity.
  - change (Py.of_int (Zpos p)) with (S754_finite false p 0).
    change (Py.of_int 1000000) with (S754_finite false 1000000 0).
    change Py.prec with 53. change Py.emax with 1024.
    rewrite int_total_seconds_pos by lia.
    symmetry. apply Z.quot_div_nonneg; lia.
  - change (Py.of_int (Zneg p)) with (S754_finite true p 0).
    change (Py.of_int 1000000) with (S754_finite false 1000000 0).
    change Py.prec with 53. change Py.emax with 1024.
    rewrite int_total_seconds_pos by lia.
    change (Zneg p) with (- Zpos p). rewrite Z.quot_opp_l by lia.
    f_equal. symmetry. apply Z.quot_div_nonneg; lia.
Qed.

(* ===================================================================== *)
(** * Ending a task *)
(* ===================================================================== *)

(** The recipients of the three rounds of [end], with the type of each row. *)
Definition end_recipients (db : DB) : list (Z * string) :=
  map (fun u => (User.id u, "task_ready_for_inspection"%string))
      (active_users_with_role db Role.quality)
  ++ map (fun u => (User.id u, "task_ready_for_testing"%string))
         (active_users_with_role db Role.tester)
  ++ map (fun u => (User.id u, "task_completed"%string))
         (active_users_with_role db Role.supervisor).

(** The database after a successful [end]. *)
Definition ended (db : DB) (task : Task.t) (now actual : Z) (new : list Notification.t) : DB :=
  mkDB (users db) (processes db) (job_orders db)
    (update Device.id (Task.device task)
       (Device.set_current_status DeviceStatus.completed now) (devices db))
    (update Task.id (Task.id task) (Task.with_end now actual) (tasks db))
    (inspections db
     ++ [Inspection.mk (next_pk (map Inspection.id (inspections db)))
           (Task.device task) (Task.id task) None Decision.pending
           "Awaiting quality inspection" now])
    (tester_reviews db) (supervisor_reviews db)
    (notifications db ++ new).

Lemma rows_with_type (type message : string) (payload : list (string * JSON)) (now : Z)
      (recipients : list User.t) (new : list Notification.t) :
  map Notification.user new = map User.id recipients ->
  Forall (fun n => Notification.type n = type
                   /\ Notification.message n = message
                   /\ Notification.payload n = payload
                   /\ Notification.read n = false
                   /\ Notification.created_at n = now) new ->
  map (fun n => (Notification.user n, Notification.type n)) new
  = map (fun u => (User.id u, type)) recipients.
Proof.
  revert recipients. induction new as [|n new IH]; intros [|u us] Hmap Hall;
    try discriminate; [reflexivity|].
  inversion Hall as [|x xs (Ht & _) Hrest]; subst. cbn in *.
  injection Hmap as Hu Hus. rewrite Hu. f_equal. now apply IH.
Qed.

(** [end] on a task in progress, by its technician. *)
Lemma end_runs (db : DB) (user : User.t) (pk now : Z) (task : Task.t) (started : Z) :
  get_object db user pk = Some task ->
  Task.status task = TaskStatus.in_progress ->
  Task.technician task = Some (User.id user) ->
  Task.start_time task = Some started ->
  exists new,
    end_ db user pk now
    = (HTTP_200_OK
         (TaskSerializer
            (ended db task now (Py.int (Py.total_seconds (now - started))) new)
            (Task.with_end now (Py.int (Py.total_seconds (now - started))) task)),
       ended db task now (Py.int (Py.total_seconds (now - started))) new)
    /\ map (fun n => (Notification.user n, Notification.type n)) new = end_recipients db
    /\ Forall (fun n => Notification.read n = false /\ Notification.created_at n = now) new.
Proof.
  intros Hget Hstatus Htech Hstart. unfold end_.
  rewrite technician_or_all_permits, Hget, Hstatus. cbn [negb TaskStatus.eqb].
  unfold technician_is. rewrite Htech, Z.eqb_refl, Hstart. cbn [negb].
  cbv zeta.
  set (actual := Py.int (Py.total_seconds (now - started))).
  set (task' := Task.with_end now actual task).
  set (db3 := set_inspections _ _).
  match goal with
  | |- context [notify_each db3 now ?us ?ty ?msg ?pl] =>
      destruct (notify_each_adds db3 now us ty msg pl) as (n1 & E1 & U1 & F1)
  end.
  rewrite E1.
  set (db4 := set_notifications db3 _) in *.
  match goal with
  | |- context [notify_each db4 now ?us ?ty ?msg ?pl] =>
      destruct (notify_each_adds db4 now us ty msg pl) as (n2 & E2 & U2 & F2)
  end.
  rewrite E2.
  set (db5 := set_notifications db4 _) in *.
  match goal with
  | |- context [notify_each db5 now ?us ?ty ?msg ?pl] =>
      destruct (notify_each_adds db5 now us ty msg pl) as (n3 & E3 & U3 & F3)
  end.
  rewrite E3.
  exists (n1 ++ n2 ++ n3). split; [|split].
  - unfold ended. subst db5 db4 db3. cbn. rewrite <- !app_assoc. reflexivity.
  - rewrite !map_app. unfold end_recipients.
    rewrite (rows_with_type _ _ _ _ _ _ U1 F1), (rows_with_type _ _ _ _ _ _ U2 F2),
      (rows_with_type _ _ _ _ _ _ U3 F3).
    reflexivity.
  - rewrite !Forall_app. repeat split;
      (eapply Forall_impl; [|eassumption]); cbn beta; tauto.
Qed.

(** Under an [end], each active quality inspector, tester and supervisor is
    the recipient of one row and nobody else of any. *)
Lemma end_recipients_once (db : DB) (u : User.t) (new : list Notification.t) :
  NoDup (map User.id (users db)) -> In u (users db) ->
  map (fun n => (Notification.user n, Notification.type n)) new = end_recipients db ->
  received (User.id u) new
  = if User.is_active u
       && (Role.eqb (User.role u) Role.quality
           || Role.eqb (User.role u) Role.tester
           || Role.eqb (User.role u) Role.supervisor)
    then 1%nat else 0%nat.
Proof.
  intros Hnd Hin Hnew. rewrite received_occurrences.
  replace (map Notification.user new)
    with (map fst (map (fun n => (Notification.user n, Notification.type n)) new))
    by (rewrite map_map; reflexivity).
  rewrite Hnew. unfold end_recipients. rewrite !map_app, !map_map. cbn [fst].
  rewrite !occurrences_app. unfold active_users_with_role.
  rewrite !(occurrences_selected _ _ _ Hnd Hin).
  destruct (User.role u), (User.is_active u); reflexivity.
Qed.

(** A task in progress whose start was stamped half a second after the
    clock reading at its end (two servers, or a clock set back). *)
Definition technician_1 : User.t := User.mk 1 "tech" "Tech One" Role.technician true false.
Definition inspector_2 : User.t := User.mk 2 "qa" "Quality Two" Role.quality true false.
Definition tester_3 : User.t := User.mk 3 "tester" "Tester Three" Role.tester true false.
Definition supervisor_4 : User.t := User.mk 4 "sup" "Supervisor Four" Role.supervisor true false.
Definition technician_5 : User.t := User.mk 5 "tech5" "Tech Five" Role.technician true false.

Definition task_in_progress (started : Z) : Task.t :=
  Task.mk 1 (Some 2) 1 1 (Some 1) "A" 600 TaskType.technician
    (Some started) None None TaskStatus.in_progress 0 started.

Definition db_in_progress (started : Z) : DB :=
  mkDB [technician_1; inspector_2; tester_3; supervisor_4; technician_5]
    [Process.mk 2 1 "A" 600 TaskType.technician 1]
    [order_JO7]
    [Device.mk 1 1 "JO-7-0001" DeviceStatus.in_progress started 0]
    [task_in_progress started]
    [] [] [] [].

(** A task in progress is in the queryset of its technician when the role
    of that user is [technician], [planning] or [admin], and of no other
    assignee. *)
Lemma assignee_finds_own_task (db : DB) (user : User.t) (pk : Z) (task : Task.t) :
  NoDup (map Task.id (tasks db)) ->
  get Task.id pk (tasks db) = Some task ->
  Task.status task = TaskStatus.in_progress ->
  Task.technician task = Some (User.id user) ->
  get_object db user pk
  = match User.role user with
    | Role.technician | Role.planning | Role.admin => Some task
    | _ => None
    end.
Proof.
  intros Hnd Hget Hstatus Htech.
  rewrite (get_object_row db user pk task Hnd Hget).
  unfold visible_to. rewrite Hstatus, Htech, Z.eqb_refl.
  destruct (User.role user); reflexivity.
Qed.

Lemma technician_finds_own_task (db : DB) (user : User.t) (pk : Z) (task : Task.t) :
  NoDup (map Task.id (tasks db)) ->
  get Task.id pk (tasks db) = Some task ->
  Task.status task = TaskStatus.in_progress ->
  Task.technician task = Some (User.id user) ->
  User.role user = Role.technician \/ User.role user = Role.planning
  \/ User.role user = Role.admin ->
  get_object db user pk = Some task.
Proof.
  intros Hnd Hget Hstatus Htech Hrole.
  rewrite (assignee_finds_own_task db user pk task Hnd Hget Hstatus Htech).
  destruct Hrole as [-> | [-> | ->]]; reflexivity.
Qed.

Lemma one_task_key (t : Task.t) : NoDup (map Task.id [t]).
Proof. cbn. constructor; [intros [] | constructor]. Qed.

(** The task of the scenario when its technician is the quality inspector
    (a user whose role was changed after the start). *)
Definition task_of_inspector : Task.t :=
  Task.mk 1 (Some 2) 1 1 (Some 2) "A" 600 TaskType.technician
    (Some 1000000) None None TaskStatus.in_progress 0 1000000.

Definition db_of_inspector : DB :=
  mkDB [technician_1; inspector_2; tester_3; supervisor_4; technician_5]
    [Process.mk 2 1 "A" 600 TaskType.technician 1]
    [order_JO7]
    [Device.mk 1 1 "JO-7-0001" DeviceStatus.in_progress 1000000 0]
    [task_of_inspector]
    [] [] [] [].

(** Three runs of [end] by the technician of a task in progress with a start
    time.  With an end half a second before the start the stored seconds are
    not the floor: the floor of -0.5 is -1, and [end] stores 0.  With an end
    19999999999.999999 seconds after the start the double nearest to the
    difference is 20000000000.0, which is stored, and the floor is
    19999999999.  With a technician whose role is [quality] the task is not
    in the queryset: the answer is 404 and nothing is written. *)
Lemma end_actual_time_is_not_the_floor :
  (get Task.id 1 (tasks (db_in_progress 1500000)) = Some (task_in_progress 1500000)
   /\ Task.status (task_in_progress 1500000) = TaskStatus.in_progress
   /\ Task.start_time (task_in_progress 1500000) = Some 1500000
   /\ Task.technician (task_in_progress 1500000) = Some (User.id technician_1)
   /\ option_map Task.actual_time_seconds
        (get Task.id 1 (tasks (snd (end_ (db_in_progress 1500000) technician_1 1 1000000))))
      = Some (Some 0)
   /\ (1000000 - 1500000) / 1000000 = -1)
  /\ (get Task.id 1 (tasks (db_in_progress 0)) = Some (task_in_progress 0)
      /\ Task.status (task_in_progress 0) = TaskStatus.in_progress
      /\ Task.start_time (task_in_progress 0) = Some 0
      /\ Task.technician (task_in_progress 0) = Some (User.id technician_1)
      /\ option_map Task.actual_time_seconds
           (get Task.id 1
              (tasks (snd (end_ (db_in_progress 0) technician_1 1 19999999999999999))))
         = Some (Some 20000000000)
      /\ (19999999999999999 - 0) / 1000000 = 19999999999)
  /\ (get Task.id 1 (tasks db_of_inspector) = Some task_of_inspector
      /\ Task.status task_of_inspector = TaskStatus.in_progress
      /\ Task.start_time task_of_inspector = Some 1000000
      /\ Task.technician task_of_inspector = Some (User.id inspector_2)
      /\ end_ db_of_inspector inspector_2 1 501999999 = (HTTP_404_NOT_FOUND, db_of_inspector)).
Proof. repeat split; vm_compute; reflexivity. Qed.

(** C1 (amended). When the technician of a task in progress ends it, the
    technician being a user of role [technician], [planning] or [admin] and
    the end less than [2^31] seconds away from the start: the task gets
    [end_time = now], [actual_time_seconds] the difference in seconds with
    its fraction dropped towards zero (what
    [int((end_time - start_time).total_seconds())] is in that range; the
    floor when [end_time >= start_time]) and status [pending_qa] (its other
    columns stay, [updated_at] apart), its device becomes [completed], one
    inspection is added for the task, pending and without inspector, and the
    new notifications are one per active quality inspector, one per active
    tester and one per active supervisor. *)
Theorem end_transition_effects
    (db : DB) (user : User.t) (pk now : Z) (task : Task.t) (started : Z) :
  NoDup (map Task.id (tasks db)) ->
  get Task.id pk (tasks db) = Some task ->
  Task.status task = TaskStatus.in_progress ->
  Task.start_time task = Some started ->
  Task.technician task = Some (User.id user) ->
  User.role user = Role.technician \/ User.role user = Role.planning
  \/ User.role user = Role.admin ->
  - 2 ^ 31 * 1000000 < now - started < 2 ^ 31 * 1000000 ->
  exists data new inspection,
    end_ db user pk now
    = (HTTP_200_OK data, ended db task now (Z.quot (now - started) 1000000) new)
    (* the task *)
    /\ get Task.id pk (tasks (ended db task now (Z.quot (now - started) 1000000) new))
       = Some (Task.mk (Task.id task) (Task.process task) (Task.device task)
                 (Task.job_order task) (Task.technician task) (Task.operation_name task)
                 (Task.standard_time_seconds task) (Task.task_type task)
                 (Task.start_time task)
                 (Some now)
                 (Some (Z.quot (now - started) 1000000))
                 TaskStatus.pending_qa
                 (Task.created_at task) now)
    /\ Z.quot (now - started) 1000000 = Py.int (Py.total_seconds (now - started))
    /\ (started <= now -> Z.quot (now - started) 1000000 = (now - started) / 1000000)
    (* the device *)
    /\ device_status_of (ended db task now (Z.quot (now - started) 1000000) new)
         (Task.device task)
       = option_map (fun _ => DeviceStatus.completed)
           (device_status_of db (Task.device task))
    (* the inspection *)
    /\ inspections (ended db task now (Z.quot (now - started) 1000000) new)
       = inspections db ++ [inspection]
    /\ Inspection.task inspection = pk
    /\ Inspection.device inspection = Task.device task
    /\ Inspection.decision inspection = Decision.pending
    /\ Inspection.inspector inspection = None
    (* the notifications *)
    /\ notifications (ended db task now (Z.quot (now - started) 1000000) new)
       = notifications db ++ new
    /\ map (fun n => (Notification.user n, Notification.type n)) new = end_recipients db
    /\ (NoDup (map User.id (users db)) ->
        forall u, In u (users db) ->
        received (User.id u) new
        = if User.is_active u
             && (Role.eqb (User.role u) Role.quality
                 || Role.eqb (User.role u) Role.tester
                 || Role.eqb (User.role u) Role.supervisor)
          then 1%nat else 0%nat).
Proof.
  intros Hnd Hrow Hstatus Hstart Htech Hrole Hnear.
  pose proof (technician_finds_own_task db user pk task Hnd Hrow Hstatus Htech Hrole)
    as Hget.
  destruct (end_runs db user pk now task started Hget Hstatus Htech Hstart)
    as (new & Hrun & Hnew & _).
  destruct (get_object_found db user pk task Hget) as (Hin & Hpk & _).
  assert (Hint : Py.int (Py.total_seconds (now - started)) = Z.quot (now - started) 1000000)
    by (apply int_total_seconds; lia).
  rewrite Hint in Hrun.
  set (actual := Z.quot (now - started) 1000000) in *.
  eexists _, new, _.
  split; [exact Hrun|].
  split.
  { unfold ended. cbn [tasks]. rewrite get_update by reflexivity.
    rewrite Hpk, Z.eqb_refl, Hrow. cbn [option_map]. rewrite <- Hpk.
    now destruct task. }
  split; [now rewrite Hint|].
  split; [intros H; apply Z.quot_div_nonneg; lia|].
  split.
  { unfold device_status_of, ended. cbn [devices]. rewrite get_update by reflexivity.
    rewrite Z.eqb_refl. now destruct (get Device.id (Task.device task) (devices db)). }
  split; [reflexivity|].
  split; [exact Hpk|].
  do 4 (split; [reflexivity|]).
  split; [exact Hnew|].
  intros Hu u Hin_u. now apply end_recipients_once with (db := db).
Qed.

(** The theorem at the task of the scenario, started at second 1 and ended
    500.999999 seconds later. *)
Lemma end_transition_effects_witness :
  NoDup (map Task.id (tasks (db_in_progress 1000000)))
  /\ get Task.id 1 (tasks (db_in_progress 1000000)) = Some (task_in_progress 1000000)
  /\ Task.status (task_in_progress 1000000) = TaskStatus.in_progress
  /\ Task.start_time (task_in_progress 1000000) = Some 1000000
  /\ Task.technician (task_in_progress 1000000) = Some (User.id technician_1)
  /\ (User.role technician_1 = Role.technician \/ User.role technician_1 = Role.planning
      \/ User.role technician_1 = Role.admin)
  /\ - 2 ^ 31 * 1000000 < 501999999 - 1000000 < 2 ^ 31 * 1000000
  /\ exists data new,
       end_ (db_in_progress 1000000) technician_1 1 501999999
       = (HTTP_200_OK data,
          ended (db_in_progress 1000000) (task_in_progress 1000000) 501999999 500 new).
Proof.
  split; [apply one_task_key|].
  do 4 (split; [reflexivity|]).
  split; [left; reflexivity|].
  split; [split; reflexivity|].
  destruct (end_transition_effects (db_in_progress 1000000) technician_1 1 501999999
              (task_in_progress 1000000) 1000000
              (one_task_key _) eq_refl eq_refl eq_refl eq_refl (or_introl eq_refl)
              (conj eq_refl eq_refl))
    as (data & new & inspection & Hrun & _).
  exists data, new. exact Hrun.
Defined.

Example end_of_the_scenario :
  let db := snd (end_ (db_in_progress 1000000) technician_1 1 501999999) in
  option_map Task.actual_time_seconds (get Task.id 1 (tasks db)) = Some (Some 500)
  /\ status_of db 1 = Some TaskStatus.pending_qa
  /\ device_status_of db 1 = Some DeviceStatus.completed
  /\ map (fun i => (Inspection.task i, Inspection.decision i, Inspection.inspector i))
         (inspections db) = [(1, Decision.pending, None)]
  /\ map (fun n => (Notification.user n, Notification.type n)) (notifications db)
     = [(2, "task_ready_for_inspection"%string); (3, "task_ready_for_testing"%string);
        (4, "task_completed"%string)]
  /\ option_map Task.calculate_efficiency (get Task.id 1 (tasks db))
     = Some (Some (Py.to_float 120)).
Proof. vm_compute. repeat split; reflexivity. Qed.

(* ===================================================================== *)
(** * The transitions and the table of tasks *)
(* ===================================================================== *)

Lemma notify_each_tasks (db : DB) (now : Z) (recipients : list User.t)
      (type message : string) (payload : list (string * JSON)) :
  tasks (notify_each db now recipients type message payload) = tasks db.
Proof. now rewrite notify_each_frame. Qed.

Lemma notify_each_devices (db : DB) (now : Z) (recipients : list User.t)
      (type message : string) (payload : list (string * JSON)) :
  devices (notify_each db now recipients type message payload) = devices db.
Proof. now rewrite notify_each_frame. Qed.

Lemma notify_each_inspections (db : DB) (now : Z) (recipients : list User.t)
      (type message : string) (payload : list (string * JSON)) :
  inspections (notify_each db now recipients type message payload) = inspections db.
Proof. now rewrite notify_each_frame. Qed.

(** ** What a validated request is *)

Lemma comments_validated (data comments : string) :
  comments_run_validation data = inl comments
  <-> Py.has_null (Py.strip data) = false /\ comments = Py.strip data.
Proof.
  unfold comments_run_validation. cbv zeta.
  destruct (Py.has_null (Py.strip data)); split.
  - discriminate.
  - intros [H _]. discriminate.
  - intros H. injection H as <-. auto.
  - intros [_ ->]. reflexivity.
Qed.

Lemma rejected_with_comments (decision : Decision.t) (comments : string) :
  Decision.eqb decision Decision.rejected && (comments =? "")%string = false
  <-> (decision = Decision.rejected -> comments <> EmptyString).
Proof.
  rewrite andb_false_iff. split.
  - intros [H | H] Hd.
    + apply not_true_iff_false in H. exfalso. apply H. now apply decision_eqb_eq.
    + now apply String.eqb_neq.
  - intros H. destruct (Decision.eqb decision Decision.rejected) eqn:E; [|now left].
    right. apply String.eqb_neq, H. now apply decision_eqb_eq.
Qed.

Lemma InspectionSerializer_validated
      (db : DB) (data : DecisionRequest) (task : Task.t) (validated_data : DecisionRequest) :
  InspectionSerializer_validate db data = inl (task, validated_data)
  <-> get Task.id (req_task_id data) (tasks db) = Some task
      /\ Py.has_null (Py.strip (req_comments data)) = false
      /\ (req_decision data = Decision.rejected -> Py.strip (req_comments data) <> EmptyString)
      /\ Task.status task = TaskStatus.pending_qa
      /\ validated_data
         = mkDecisionRequest (req_task_id data) (req_decision data)
             (Py.strip (req_comments data)).
Proof.
  unfold InspectionSerializer_validate.
  destruct (get Task.id (req_task_id data) (tasks db)) as [t|];
    [|split; [discriminate | intros (H & _); discriminate]].
  destruct (comments_run_validation (req_comments data)) as [comments | e] eqn:C.
  - apply comments_validated in C. destruct C as [Hnull ->].
    destruct (Decision.eqb (req_decision data) Decision.rejected
              && (Py.strip (req_comments data) =? "")%string) eqn:R.
    + split; [discriminate|]. intros (_ & _ & H & _).
      apply rejected_with_comments in H. congruence.
    + pose proof (proj1 (rejected_with_comments _ _) R) as R'.
      destruct (TaskStatus.eqb (Task.status t) TaskStatus.pending_qa) eqn:S; cbn [negb].
      * apply task_status_eqb_eq in S. split.
        -- intros H. injection H as <- <-. repeat split; auto.
        -- intros (H & _ & _ & _ & ->). injection H as <-. reflexivity.
      * apply task_status_eqb_neq in S. split; [discriminate|].
        intros (H & _ & _ & Hs & _). injection H as <-. contradiction.
  - split; [discriminate|]. intros (_ & Hnull & _).
    assert (H : comments_run_validation (req_comments data)
                = inl (Py.strip (req_comments data)))
      by (apply comments_validated; auto).
    congruence.
Qed.

Lemma TesterReviewSerializer_validated
      (db : DB) (data : DecisionRequest) (task : Task.t) (validated_data : DecisionRequest) :
  TesterReviewSerializer_validate db data = inl (task, validated_data)
  <-> get Task.id (req_task_id data) (tasks db) = Some task
      /\ Py.has_null (Py.strip (req_comments data)) = false
      /\ (req_decision data = Decision.rejected -> Py.strip (req_comments data) <> EmptyString)
      /\ Task.status task = TaskStatus.pending_tester
      /\ validated_data
         = mkDecisionRequest (req_task_id data) (req_decision data)
             (Py.strip (req_comments data)).
Proof.
  unfold TesterReviewSerializer_validate.
  destruct (get Task.id (req_task_id data) (tasks db)) as [t|];
    [|split; [discriminate | intros (H & _); discriminate]].
  destruct (comments_run_validation (req_comments data)) as [comments | e] eqn:C.
  - apply comments_validated in C. destruct C as [Hnull ->].
    destruct (Decision.eqb (req_decision data) Decision.rejected
              && (Py.strip (req_comments data) =? "")%string) eqn:R.
    + split; [discriminate|]. intros (_ & _ & H & _).
      apply rejected_with_comments in H. congruence.
    + pose proof (proj1 (rejected_with_comments _ _) R) as R'.
      destruct (TaskStatus.eqb (Task.status t) TaskStatus.pending_tester) eqn:S; cbn [negb].
      * apply task_status_eqb_eq in S. split.
        -- intros H. injection H as <- <-. repeat split; auto.
        -- intros (H & _ & _ & _ & ->). injection H as <-. reflexivity.
      * apply task_status_eqb_neq in S. split; [discriminate|].
        intros (H & _ & _ & Hs & _). injection H as <-. contradiction.
  - split; [discriminate|]. intros (_ & Hnull & _).
    assert (H : comments_run_validation (req_comments data)
                = inl (Py.strip (req_comments data)))
      by (apply comments_validated; auto).
    congruence.
Qed.

Lemma SupervisorReviewSerializer_validated
      (db : DB) (data : SupervisorRequest) (inspection : Inspection.t)
      (validated_data : SupervisorRequest) :
  SupervisorReviewSerializer_validate db data = inl (inspection, validated_data)
  <-> get Inspection.id (req_inspection_id data) (inspections db) = Some inspection
      /\ req_supervisor_decision data <> Decision.pending
      /\ Py.has_null (Py.strip (req_supervisor_comments data)) = false
      /\ validated_data
         = mkSupervisorRequest (req_inspection_id data) (req_supervisor_decision data)
             (Py.strip (req_supervisor_comments data)).
Proof.
  unfold SupervisorReviewSerializer_validate.
  destruct (get Inspection.id (req_inspection_id data) (inspections db)) as [i|];
    [|split; [discriminate | intros (H & _); discriminate]].
  destruct (req_supervisor_decision data) eqn:D;
    [split; [discriminate | intros (_ & H & _); congruence] | |];
    (destruct (comments_run_validation (req_supervisor_comments data)) as [comments | e] eqn:C;
     [apply comments_validated in C; destruct C as [Hnull ->]; split;
      [intros H; injection H as <- <-; repeat split; auto; discriminate
      |intros (H & _ & _ & ->); injection H as <-; reflexivity]
     |split; [discriminate|]; intros (_ & _ & Hnull & _);
      assert (H : comments_run_validation (req_supervisor_comments data)
                  = inl (Py.strip (req_supervisor_comments data)))
        by (apply comments_validated; auto);
      congruence]).
Qed.

(** Which rows of [tasks] a transition rewrites, and how: the task it found
    was in the status the transition starts from, and the rows of its key get
    the status the transition leads to.  The supervisor's decision is the one
    transition that asks nothing of the status it finds. *)
Definition rewrites (user : User.t) (now : Z) (tr : Transition)
    (task : Task.t) (f : Task.t -> Task.t) : Prop :=
  match tr with
  | Start _ =>
      Task.status task = TaskStatus.available
      /\ f = Task.with_start (User.id user) now
  | End _ =>
      Task.status task = TaskStatus.in_progress
      /\ exists actual, f = Task.with_end now actual
  | QaDecision _ =>
      Task.status task = TaskStatus.pending_qa
      /\ (f = Task.with_status TaskStatus.pending_tester now
          \/ f = Task.with_status TaskStatus.rejected now)
  | TesterDecision _ =>
      Task.status task = TaskStatus.pending_tester
      /\ (f = Task.with_status TaskStatus.pending_supervisor now
          \/ f = Task.with_status TaskStatus.rejected now)
  | SupervisorDecision _ =>
      f = Task.with_status TaskStatus.supervisor_approved now
      \/ f = Task.with_status TaskStatus.rejected now
  end.

Lemma step_tasks (db : DB) (user : User.t) (now : Z) (tr : Transition) :
  tasks (snd (step db user now tr)) = tasks db
  \/ exists task f,
       In task (tasks db)
       /\ tasks (snd (step db user now tr)) = update Task.id (Task.id task) f (tasks db)
       /\ rewrites user now tr task f.
Proof.
  destruct tr as [pk | pk | data | data | data]; cbn [step].
  - (* start *)
    unfold start. destruct (has_permission IsTechnicianOrAll user); [|now left].
    cbn [negb]. destruct (get_object db user pk) as [task|] eqn:Hget; [|now left].
    destruct (TaskStatus.eqb (Task.status task) TaskStatus.available) eqn:Hs; [|now left].
    cbn [negb snd]. right. exists task, (Task.with_start (User.id user) now).
    apply task_status_eqb_eq in Hs. apply get_object_found in Hget.
    repeat split; tauto.
  - (* end *)
    unfold end_. destruct (has_permission IsTechnicianOrAll user); [|now left].
    cbn [negb]. destruct (get_object db user pk) as [task|] eqn:Hget; [|now left].
    destruct (TaskStatus.eqb (Task.status task) TaskStatus.in_progress) eqn:Hs; [|now left].
    cbn [negb]. destruct (technician_is task user); [|now left].
    cbn [negb]. destruct (Task.start_time task) as [started|]; [|now left].
    cbv zeta. cbn [snd]. rewrite !notify_each_tasks. cbn [tasks set_inspections
      save_device_status set_devices set_tasks].
    right. exists task, (Task.with_end now (Py.int (Py.total_seconds (now - started)))).
    apply task_status_eqb_eq in Hs. apply get_object_found in Hget.
    repeat split; try tauto. now eexists.
  - (* qa_decision *)
    unfold InspectionViewSet_create.
    destruct (has_permission IsQualityOrTesterOrAdmin user); [|now left]. cbn [negb].
    destruct (InspectionSerializer_validate db data) as [[task validated] | [field message]]
      eqn:V; [|now left].
    apply InspectionSerializer_validated in V. destruct V as (Hget & _ & _ & Hs & ->).
    cbn [snd]. apply get_in in Hget.
    unfold InspectionViewSet_perform_create. cbn [req_decision req_comments].
    destruct (pending_inspection db task) as [inspection|];
      destruct (req_decision data); cbn [snd tasks set_inspections];
      try (now left);
      try (rewrite notify_each_tasks);
      try (destruct (Task.technician task));
      cbn [tasks create_notification set_notifications save_device_status
           set_devices save_task_status set_tasks set_inspections];
      right; exists task; eexists; (split; [tauto|]); (split; [reflexivity|]);
      (split; [exact Hs|]); auto.
  - (* tester_decision *)
    unfold TesterReviewViewSet_create.
    destruct (has_permission IsTesterOrAdmin user); [|now left]. cbn [negb].
    destruct (TesterReviewSerializer_validate db data) as [[task validated] | [field message]]
      eqn:V; [|now left].
    apply TesterReviewSerializer_validated in V. destruct V as (Hget & _ & _ & Hs & ->).
    cbn [snd]. apply get_in in Hget.
    unfold TesterReviewViewSet_perform_create. cbn [req_decision req_comments].
    destruct (req_decision data); cbn [snd tasks set_tester_reviews];
      try (now left);
      try (rewrite notify_each_tasks);
      try (destruct (Task.technician task));
      cbn [tasks create_notification set_notifications save_device_status
           set_devices save_task_status set_tasks set_tester_reviews];
      right; exists task; eexists; (split; [tauto|]); (split; [reflexivity|]);
      (split; [exact Hs|]); auto.
  - (* supervisor_decision *)
    unfold SupervisorReviewViewSet_create.
    destruct (has_permission IsSupervisorOrAdmin user); [|now left]. cbn [negb].
    destruct (SupervisorReviewSerializer_validate db data)
      as [[inspection validated] | [field message]] eqn:V; [|now left].
    apply SupervisorReviewSerializer_validated in V. destruct V as (_ & Hpending & _ & ->).
    destruct (get Task.id (Inspection.task inspection) (tasks db)) as [task|] eqn:Hget;
      [|now left].
    apply get_in in Hget. cbn [snd].
    unfold SupervisorReviewViewSet_perform_create.
    cbn [req_supervisor_decision req_supervisor_comments].
    destruct (req_supervisor_decision data) eqn:Hd; [congruence| |];
      try (rewrite notify_each_tasks);
      try (destruct (Task.technician task));
      cbn [tasks create_notification set_notifications save_device_status
           set_devices save_task_status set_tasks set_supervisor_reviews];
      right; exists task; eexists; (split; [tauto|]); (split; [reflexivity|]);
      cbn [rewrites]; auto.
Qed.

(* ===================================================================== *)
(** * Starting a task *)
(* ===================================================================== *)

(** A response that reports a failure. *)
Definition is_error (r : Response) : Prop :=
  match r with
  | HTTP_200_OK _ | HTTP_201_CREATED => False
  | _ => True
  end.

(** A sequence of requests, each with its user and the time it is served. *)
Definition run (db : DB) (trace : list (User.t * Z * Transition)) : DB :=
  fold_left (fun db request =>
               let '(user, now, tr) := request in snd (step db user now tr))
            trace db.

(** No row of key [pk] is [available]. *)
Definition taken (db : DB) (pk : Z) : Prop :=
  forall t, In t (tasks db) -> Task.id t = pk -> Task.status t <> TaskStatus.available.

(** No transition makes a task [available]. *)
Lemma step_taken (db : DB) (user : User.t) (now : Z) (tr : Transition) (pk : Z) :
  taken db pk -> taken (snd (step db user now tr)) pk.
Proof.
  intros Htaken t Hin Hpk.
  destruct (step_tasks db user now tr) as [E | (task & f & _ & E & Hf)]; rewrite E in Hin.
  - now apply Htaken.
  - unfold update in Hin. apply in_map_iff in Hin. destruct Hin as (r & Hr & Hin).
    destruct (Task.id r =? Task.id task).
    + subst t. destruct tr; cbn [rewrites] in Hf.
      * destruct Hf as (_ & ->). discriminate.
      * destruct Hf as (_ & a & ->). discriminate.
      * destruct Hf as (_ & [-> | ->]); discriminate.
      * destruct Hf as (_ & [-> | ->]); discriminate.
      * destruct Hf as [-> | ->]; discriminate.
    + subst t. now apply Htaken.
Qed.

Lemma run_taken (db : DB) (trace : list (User.t * Z * Transition)) (pk : Z) :
  taken db pk -> taken (run db trace) pk.
Proof.
  revert db. induction trace as [|[[user now] tr] trace IH]; intros db H; [exact H|].
  cbn [run fold_left]. apply IH. now apply step_taken.
Qed.

(** [start] on a task that is taken fails and changes nothing. *)
Lemma start_taken (db : DB) (user : User.t) (pk now : Z) :
  taken db pk ->
  is_error (fst (start db user pk now)) /\ snd (start db user pk now) = db.
Proof.
  intros Htaken. unfold start.
  destruct (has_permission IsTechnicianOrAll user); [|now split].
  cbn [negb]. destruct (get_object db user pk) as [task|] eqn:Hget; [|now split].
  apply get_object_found in Hget. destruct Hget as (Hin & Hpk & _).
  specialize (Htaken task Hin Hpk). apply task_status_eqb_neq in Htaken.
  rewrite Htaken. now split.
Qed.

(** After the save of [start], the user who started the task finds it. *)
Lemma get_object_started (db : DB) (user : User.t) (pk now : Z) (task : Task.t) :
  get_object db user pk = Some task ->
  Task.status task = TaskStatus.available ->
  exists row,
    get_object
      (save_device_status
         (set_tasks db (update Task.id pk (Task.with_start (User.id user) now) (tasks db)))
         now (Task.with_start (User.id user) now task) DeviceStatus.in_progress)
      user pk
    = Some (Task.with_start (User.id user) now row).
Proof.
  intros Hget Hstatus. apply get_object_found in Hget.
  destruct Hget as (Hin & Hpk & Hvis).
  assert (Hsees : forall r, visible_to user (Task.with_start (User.id user) now r) = true).
  { intros r. unfold visible_to in *. rewrite Hstatus in Hvis.
    destruct (User.role user); cbn in *; try discriminate; try reflexivity.
    now rewrite Z.eqb_refl. }
  unfold get_object, save_device_status. cbn [tasks set_devices set_tasks].
  clear Hvis Hstatus. revert Hin. unfold update.
  induction (tasks db) as [|r rows IH]; intros Hin; [destruct Hin|].
  cbn [map find]. destruct (Z.eqb_spec (Task.id r) pk) as [E | N].
  - exists r. cbn [Task.with_start Task.id]. rewrite E, Z.eqb_refl.
    fold (Task.with_start (User.id user) now r). now rewrite (Hsees r).
  - destruct (Z.eqb_spec (Task.id r) pk); [contradiction|]. cbn [andb].
    apply IH. destruct Hin as [-> | Hin]; [contradiction | exact Hin].
Qed.

(** A task outside the user's queryset is not found, whatever its status;
    nothing changes either. *)
Lemma start_not_found (db : DB) (user : User.t) (pk now : Z) :
  get_object db user pk = None ->
  start db user pk now = (HTTP_404_NOT_FOUND, db).
Proof.
  intros H. unfold start. now rewrite technician_or_all_permits, H.
Qed.

(** A second technician gets no conflict: the task that [technician_1] has
    started is no longer in the queryset of [technician_5], whose [start] is
    answered with 404 and no status. *)
Lemma start_outside_the_queryset_is_not_found :
  get Task.id 1 (tasks (db_in_progress 1000000)) = Some (task_in_progress 1000000)
  /\ Task.status (task_in_progress 1000000) = TaskStatus.in_progress
  /\ User.role technician_5 = Role.technician
  /\ start (db_in_progress 1000000) technician_5 1 2000000
     = (HTTP_404_NOT_FOUND, db_in_progress 1000000).
Proof. repeat split. Qed.

(** C6 (amended). A [start] on a task that is not [available] fails and
    changes nothing: it is refused with the status the task is in when the
    task is in the user's queryset, and answered with not found when it is
    not.  A [start] on an available task of the user's queryset succeeds, and
    from then on no [start] on it succeeds: the next one by the same user is
    refused with status In Progress, and after any sequence of requests a
    [start] by anyone fails and changes nothing. *)
Theorem start_succeeds_at_most_once
    (db : DB) (user : User.t) (pk now : Z) (task : Task.t) :
  NoDup (map Task.id (tasks db)) ->
  get Task.id pk (tasks db) = Some task ->
  (Task.status task <> TaskStatus.available ->
   start db user pk now
   = (if visible_to user task
      then HTTP_400_BAD_REQUEST "detail"
             ("Task cannot be started. Current status: "
              ++ TaskStatus.display (Task.status task) ++ ".")
      else HTTP_404_NOT_FOUND,
      db))
  /\ (Task.status task = TaskStatus.available ->
      visible_to user task = true ->
      (exists data, fst (start db user pk now) = HTTP_200_OK data)
      /\ tasks (snd (start db user pk now))
         = update Task.id pk (Task.with_start (User.id user) now) (tasks db)
      /\ devices (snd (start db user pk now))
         = update Device.id (Task.device task)
             (Device.set_current_status DeviceStatus.in_progress now) (devices db)
      /\ (forall now',
          start (snd (start db user pk now)) user pk now'
          = (HTTP_400_BAD_REQUEST "detail"
               "Task cannot be started. Current status: In Progress.",
             snd (start db user pk now)))
      /\ (forall trace user' now',
          is_error (fst (start (run (snd (start db user pk now)) trace) user' pk now'))
          /\ snd (start (run (snd (start db user pk now)) trace) user' pk now')
             = run (snd (start db user pk now)) trace)).
Proof.
  intros Hnd Hrow.
  pose proof (get_object_row db user pk task Hnd Hrow) as Hobj.
  split.
  - intros Hstatus. destruct (visible_to user task).
    + unfold start. rewrite technician_or_all_permits, Hobj. cbn [negb].
      apply task_status_eqb_neq in Hstatus. now rewrite Hstatus.
    + now apply start_not_found.
  - intros Hstatus Hvis. rewrite Hvis in Hobj. rename Hobj into Hget.
    destruct (get_object_found db user pk task Hget) as (Hin & Hpk & _).
    assert (Hrun : start db user pk now
                   = (HTTP_200_OK
                        (TaskSerializer
                           (save_device_status
                              (set_tasks db
                                 (update Task.id pk (Task.with_start (User.id user) now)
                                    (tasks db)))
                              now (Task.with_start (User.id user) now task)
                              DeviceStatus.in_progress)
                           (Task.with_start (User.id user) now task)),
                      save_device_status
                        (set_tasks db
                           (update Task.id pk (Task.with_start (User.id user) now)
                              (tasks db)))
                        now (Task.with_start (User.id user) now task)
                        DeviceStatus.in_progress)).
    { unfold start. rewrite technician_or_all_permits, Hget, Hstatus, Hpk. reflexivity. }
    rewrite Hrun. cbn [fst snd].
    split; [now eexists|]. split; [reflexivity|]. split; [reflexivity|]. split.
    + intros now'.
      destruct (get_object_started db user pk now task Hget Hstatus) as (row & Hrow').
      unfold start at 1. rewrite technician_or_all_permits, Hrow'. reflexivity.
    + intros trace user' now'. apply start_taken, run_taken.
      intros t Ht Hid. cbn [tasks save_device_status set_devices set_tasks] in Ht.
      unfold update in Ht. apply in_map_iff in Ht. destruct Ht as (r & Hr & Hrin).
      destruct (Z.eqb_spec (Task.id r) pk) as [E | N].
      * subst t. discriminate.
      * subst t. contradiction.
Qed.

(** The theorem at a task that is in progress: a second start by its
    technician is refused. *)
Lemma start_succeeds_at_most_once_witness :
  NoDup (map Task.id (tasks (db_in_progress 1000000)))
  /\ get Task.id 1 (tasks (db_in_progress 1000000)) = Some (task_in_progress 1000000)
  /\ start (db_in_progress 1000000) technician_1 1 2000000
     = (HTTP_400_BAD_REQUEST "detail"
          "Task cannot be started. Current status: In Progress.",
        db_in_progress 1000000).
Proof.
  split; [apply one_task_key|]. split; [reflexivity|].
  apply (proj1 (start_succeeds_at_most_once (db_in_progress 1000000) technician_1 1
                  2000000 (task_in_progress 1000000) (one_task_key _) eq_refl)).
  discriminate.
Defined.

(* ===================================================================== *)
(** * Ending somebody else's task *)
(* ===================================================================== *)

(** C7. An [end] on a task in progress by a user who is not its technician
    fails, forbidden when the task is in the user's queryset and not found
    otherwise, and the database is left as it was: no column of a task or a
    device changes, no inspection and no notification is added. *)
Theorem end_by_another_actor_changes_nothing
    (db : DB) (user : User.t) (pk now : Z) (task : Task.t) :
  NoDup (map Task.id (tasks db)) ->
  get Task.id pk (tasks db) = Some task ->
  Task.status task = TaskStatus.in_progress ->
  Task.technician task <> Some (User.id user) ->
  end_ db user pk now
  = (if visible_to user task
     then HTTP_403_FORBIDDEN "You are not the assigned technician for this task."
     else HTTP_404_NOT_FOUND,
     db)
  /\ is_error (fst (end_ db user pk now))
  /\ tasks (snd (end_ db user pk now)) = tasks db
  /\ devices (snd (end_ db user pk now)) = devices db
  /\ inspections (snd (end_ db user pk now)) = inspections db
  /\ notifications (snd (end_ db user pk now)) = notifications db.
Proof.
  intros Hnd Hget Hstatus Htech.
  assert (E : end_ db user pk now
              = (if visible_to user task
                 then HTTP_403_FORBIDDEN "You are not the assigned technician for this task."
                 else HTTP_404_NOT_FOUND, db)).
  { unfold end_. rewrite technician_or_all_permits. cbn [negb].
    rewrite (get_object_row db user pk task Hnd Hget).
    destruct (visible_to user task); [|reflexivity].
    rewrite Hstatus. cbn [TaskStatus.eqb negb].
    replace (technician_is task user) with false; [reflexivity|].
    unfold technician_is. destruct (Task.technician task) as [uid|]; [|reflexivity].
    symmetry. apply Z.eqb_neq. congruence. }
  rewrite E. repeat split. now destruct (visible_to user task).
Qed.

(** The theorem at the task of [technician_1], ended by [technician_5] (who
    does not see it) and by an administrator (who does). *)
Definition admin_6 : User.t := User.mk 6 "admin" "Admin Six" Role.admin true false.

Lemma end_by_another_actor_changes_nothing_witness :
  NoDup (map Task.id (tasks (db_in_progress 1000000)))
  /\ get Task.id 1 (tasks (db_in_progress 1000000)) = Some (task_in_progress 1000000)
  /\ Task.status (task_in_progress 1000000) = TaskStatus.in_progress
  /\ Task.technician (task_in_progress 1000000) <> Some (User.id admin_6)
  /\ end_ (db_in_progress 1000000) admin_6 1 2000000
     = (HTTP_403_FORBIDDEN "You are not the assigned technician for this task.",
        db_in_progress 1000000).
Proof.
  assert (Hnd : NoDup (map Task.id (tasks (db_in_progress 1000000)))).
  { cbn. constructor; [intros [] | constructor]. }
  assert (Hne : Task.technician (task_in_progress 1000000) <> Some (User.id admin_6))
    by discriminate.
  split; [exact Hnd|]. split; [reflexivity|]. split; [reflexivity|]. split; [exact Hne|].
  exact (proj1 (end_by_another_actor_changes_nothing (db_in_progress 1000000) admin_6 1
                  2000000 (task_in_progress 1000000) Hnd eq_refl eq_refl Hne)).
Defined.

Example end_by_another_technician :
  end_ (db_in_progress 1000000) technician_5 1 2000000
  = (HTTP_404_NOT_FOUND, db_in_progress 1000000).
Proof. reflexivity. Qed.

(* ===================================================================== *)
(** * The quality decision *)
(* ===================================================================== *)

(** ** The pending inspection that is picked *)

Lemma latest_from (rows : list Inspection.t) (best : Inspection.t) :
  exists i,
    fold_left
      (fun best row =>
         match best with
         | None => Some row
         | Some b =>
             if Inspection.created_at b <? Inspection.created_at row
             then Some row else Some b
         end)
      rows (Some best) = Some i
    /\ (i = best \/ In i rows).
Proof.
  revert best. induction rows as [|r rows IH]; intros best; cbn [fold_left].
  - exists best. auto.
  - destruct (Inspection.created_at best <? Inspection.created_at r).
    + destruct (IH r) as (i & E & [Hi | H]); exists i; cbn; auto.
    + destruct (IH best) as (i & E & [Hi | H]); exists i; cbn; auto.
Qed.

Lemma latest_in (rows : list Inspection.t) :
  rows <> [] -> exists i, latest rows = Some i /\ In i rows.
Proof.
  destruct rows as [|r rows]; [congruence|]. intros _.
  unfold latest. cbn [fold_left].
  destruct (latest_from rows r) as (i & E & [Hi | H]); exists i; cbn; auto.
Qed.

Lemma pending_inspection_found (db : DB) (task : Task.t) :
  (exists i, In i (inspections db)
             /\ Inspection.task i = Task.id task
             /\ Inspection.decision i = Decision.pending) ->
  exists inspection,
    pending_inspection db task = Some inspection
    /\ In inspection (inspections db)
    /\ Inspection.task inspection = Task.id task
    /\ Inspection.decision inspection = Decision.pending.
Proof.
  intros (i & Hin & Htask & Hdec).
  assert (Hne : pending_inspections db task <> []).
  { intros E. assert (H : In i (pending_inspections db task)).
    { apply filter_In. split; [exact Hin|].
      rewrite Htask, Hdec, Z.eqb_refl. reflexivity. }
    rewrite E in H. destruct H. }
  destruct (latest_in _ Hne) as (inspection & E & H).
  exists inspection. split; [exact E|].
  apply filter_In in H. destruct H as [H1 H2].
  apply andb_true_iff in H2. destruct H2 as [H2 H3].
  apply Z.eqb_eq in H2. apply decision_eqb_eq in H3. auto.
Qed.

(** ** Refusing a rejection without comments *)

(** The database after the task of the scenario was ended: task 1 is
    [pending_qa] and inspection 1 is pending. *)
Definition db_pending_qa : DB :=
  Eval vm_compute in snd (end_ (db_in_progress 1000000) technician_1 1 501999999).

Definition task_pending_qa : Task.t :=
  Eval vm_compute in
    Task.with_end 501999999 500 (task_in_progress 1000000).

(** C8. A quality decision [rejected] with empty comments is refused and
    nothing is written: the database is returned as it was (task, device,
    inspections and notifications included).  For a user allowed to post and
    an existing task, the refusal is the validation error on [comments]. *)
Theorem rejection_without_comments_is_refused
    (db : DB) (user : User.t) (data : DecisionRequest) (now : Z) :
  req_decision data = Decision.rejected ->
  req_comments data = EmptyString ->
  snd (InspectionViewSet_create db user data now) = db
  /\ is_error (fst (InspectionViewSet_create db user data now))
  /\ (has_permission IsQualityOrTesterOrAdmin user = true ->
      forall task,
        get Task.id (req_task_id data) (tasks db) = Some task ->
        InspectionViewSet_create db user data now
        = (HTTP_400_BAD_REQUEST "comments"
             "Comments are mandatory when rejecting an inspection.",
           db)).
Proof.
  intros Hdec Hcom. unfold InspectionViewSet_create, InspectionSerializer_validate.
  rewrite Hdec, Hcom. cbn [Decision.eqb andb String.eqb].
  destruct (has_permission IsQualityOrTesterOrAdmin user).
  - cbn [negb].
    destruct (get Task.id (req_task_id data) (tasks db)) as [task|]; cbn [fst snd].
    + split; [reflexivity|]. split; [exact I|]. intros _ t E. reflexivity.
    + split; [reflexivity|]. split; [exact I|]. intros _ t E. discriminate.
  - cbn [negb fst snd]. split; [reflexivity|]. split; [exact I|]. discriminate.
Qed.

Lemma rejection_without_comments_is_refused_witness :
  req_decision (mkDecisionRequest 1 Decision.rejected "") = Decision.rejected
  /\ req_comments (mkDecisionRequest 1 Decision.rejected "") = EmptyString
  /\ InspectionViewSet_create db_pending_qa inspector_2
       (mkDecisionRequest 1 Decision.rejected "") 600000000
     = (HTTP_400_BAD_REQUEST "comments"
          "Comments are mandatory when rejecting an inspection.",
        db_pending_qa).
Proof.
  split; [reflexivity|]. split; [reflexivity|].
  exact (proj2 (proj2 (rejection_without_comments_is_refused db_pending_qa inspector_2
                         (mkDecisionRequest 1 Decision.rejected "") 600000000
                         eq_refl eq_refl))
           eq_refl task_pending_qa eq_refl).
Defined.

(** ** Reviewing the pending inspection in place *)

(** The run of [perform_create] when a pending inspection exists. *)
Lemma qa_decision_runs
    (db : DB) (user : User.t) (data : DecisionRequest) (now : Z)
    (task : Task.t) (inspection : Inspection.t) :
  has_permission IsQualityOrTesterOrAdmin user = true ->
  get Task.id (req_task_id data) (tasks db) = Some task ->
  Task.status task = TaskStatus.pending_qa ->
  pending_inspection db task = Some inspection ->
  Py.has_null (Py.strip (req_comments data)) = false ->
  (req_decision data = Decision.rejected -> Py.strip (req_comments data) <> EmptyString) ->
  let validated_data :=
    mkDecisionRequest (req_task_id data) (req_decision data) (Py.strip (req_comments data)) in
  InspectionViewSet_create db user data now
  = (HTTP_201_CREATED, InspectionViewSet_perform_create db user task validated_data now)
  /\ inspections (InspectionViewSet_perform_create db user task validated_data now)
     = update Inspection.id (Inspection.id inspection)
         (review_inspection user (req_decision data) (Py.strip (req_comments data)))
         (inspections db)
  /\ tasks (InspectionViewSet_perform_create db user task validated_data now)
     = match req_decision data with
       | Decision.accepted =>
           update Task.id (Task.id task)
             (Task.with_status TaskStatus.pending_tester now) (tasks db)
       | Decision.rejected =>
           update Task.id (Task.id task)
             (Task.with_status TaskStatus.rejected now) (tasks db)
       | Decision.pending => tasks db
       end
  /\ devices (InspectionViewSet_perform_create db user task validated_data now)
     = match req_decision data with
       | Decision.rejected =>
           update Device.id (Task.device task)
             (Device.set_current_status DeviceStatus.rejected now) (devices db)
       | _ => devices db
       end.
Proof.
  intros Hperm Hget Hstatus Hpending Hnull Hcomments validated_data.
  split.
  - unfold InspectionViewSet_create. rewrite Hperm. cbn [negb].
    assert (V : InspectionSerializer_validate db data = inl (task, validated_data))
      by (apply InspectionSerializer_validated; auto).
    now rewrite V.
  - unfold InspectionViewSet_perform_create. rewrite Hpending.
    subst validated_data. cbn [req_decision req_comments].
    destruct (req_decision data).
    + repeat split.
    + rewrite notify_each_inspections, notify_each_tasks, notify_each_devices.
      repeat split.
    + destruct (Task.technician task); repeat split.
Qed.

(** C4. A quality decision on a task that is [pending_qa] and has a pending
    inspection, when the request passes the serializer (its comments,
    stripped of the whitespace around them as [CharField] does, hold no null
    character, and are not empty when the decision is [rejected]): the
    pending inspection is rewritten in place, with the user as inspector,
    the decision of the request and its stripped comments, and no row is
    inserted: the keys of the table are the same afterwards.  [accepted]
    moves the task to [pending_tester]; [rejected] moves the task and its
    device to [rejected]. *)
Theorem qa_decision_updates_the_pending_inspection
    (db : DB) (user : User.t) (data : DecisionRequest) (now : Z) (task : Task.t) :
  has_permission IsQualityOrTesterOrAdmin user = true ->
  get Task.id (req_task_id data) (tasks db) = Some task ->
  Task.status task = TaskStatus.pending_qa ->
  (exists i, In i (inspections db)
             /\ Inspection.task i = Task.id task
             /\ Inspection.decision i = Decision.pending) ->
  Py.has_null (Py.strip (req_comments data)) = false ->
  (req_decision data = Decision.rejected -> Py.strip (req_comments data) <> EmptyString) ->
  exists inspection,
    (* the inspection picked is a pending inspection of the task *)
    In inspection (inspections db)
    /\ Inspection.task inspection = Task.id task
    /\ Inspection.decision inspection = Decision.pending
    /\ fst (InspectionViewSet_create db user data now) = HTTP_201_CREATED
    (* it is rewritten in place *)
    /\ inspections (snd (InspectionViewSet_create db user data now))
       = update Inspection.id (Inspection.id inspection)
           (review_inspection user (req_decision data) (Py.strip (req_comments data)))
           (inspections db)
    /\ In (Inspection.mk (Inspection.id inspection) (Inspection.device inspection)
             (Inspection.task inspection) (Some (User.id user))
             (req_decision data) (Py.strip (req_comments data))
             (Inspection.created_at inspection))
          (inspections (snd (InspectionViewSet_create db user data now)))
    (* no row is inserted *)
    /\ map Inspection.id (inspections (snd (InspectionViewSet_create db user data now)))
       = map Inspection.id (inspections db)
    /\ List.length (inspections (snd (InspectionViewSet_create db user data now)))
       = List.length (inspections db)
    (* the task and the device *)
    /\ (req_decision data = Decision.accepted ->
        status_of (snd (InspectionViewSet_create db user data now)) (Task.id task)
        = Some TaskStatus.pending_tester
        /\ devices (snd (InspectionViewSet_create db user data now)) = devices db)
    /\ (req_decision data = Decision.rejected ->
        status_of (snd (InspectionViewSet_create db user data now)) (Task.id task)
        = Some TaskStatus.rejected
        /\ device_status_of (snd (InspectionViewSet_create db user data now))
             (Task.device task)
           = option_map (fun _ => DeviceStatus.rejected)
               (device_status_of db (Task.device task))).
Proof.
  intros Hperm Hget Hstatus Hexists Hnull Hcomments.
  destruct (pending_inspection_found db task Hexists)
    as (inspection & Hpending & Hin & Htask & Hdec).
  destruct (qa_decision_runs db user data now task inspection
              Hperm Hget Hstatus Hpending Hnull Hcomments) as (Hrun & Hi & Ht & Hd).
  destruct (get_in Task.id _ _ _ Hget) as (_ & Hid).
  exists inspection. rewrite Hrun. cbn [fst snd]. rewrite Hi.
  split; [exact Hin|]. split; [exact Htask|]. split; [exact Hdec|].
  split; [reflexivity|]. split; [reflexivity|].
  split.
  { unfold update. apply in_map_iff. exists inspection. split; [|exact Hin].
    now rewrite Z.eqb_refl. }
  split; [now apply update_keys|].
  split; [apply update_length|].
  split.
  - intros Ha. unfold status_of. rewrite Ht, Hd, Ha.
    rewrite get_update by reflexivity. rewrite Z.eqb_refl.
    rewrite Hid, Hget. split; reflexivity.
  - intros Hr. unfold status_of, device_status_of. rewrite Ht, Hd, Hr.
    rewrite !get_update by reflexivity. rewrite !Z.eqb_refl.
    rewrite Hid, Hget. split; [reflexivity|].
    now destruct (get Device.id (Task.device task) (devices db)).
Qed.

(** The request of the scenario: a rejection whose comment comes with
    blanks around it. *)
Definition rejection_bad : DecisionRequest := mkDecisionRequest 1 Decision.rejected "  bad ".

(** The theorem at the task of the scenario: the comment is stored as
    [bad]. *)
Lemma qa_decision_updates_the_pending_inspection_witness :
  has_permission IsQualityOrTesterOrAdmin inspector_2 = true
  /\ get Task.id 1 (tasks db_pending_qa) = Some task_pending_qa
  /\ Task.status task_pending_qa = TaskStatus.pending_qa
  /\ (exists i, In i (inspections db_pending_qa)
                /\ Inspection.task i = Task.id task_pending_qa
                /\ Inspection.decision i = Decision.pending)
  /\ Py.has_null (Py.strip (req_comments rejection_bad)) = false
  /\ (req_decision rejection_bad = Decision.rejected ->
      Py.strip (req_comments rejection_bad) <> EmptyString)
  /\ exists inspection,
       inspections (snd (InspectionViewSet_create db_pending_qa inspector_2
                           rejection_bad 600000000))
       = update Inspection.id (Inspection.id inspection)
           (review_inspection inspector_2 Decision.rejected "bad")
           (inspections db_pending_qa).
Proof.
  assert (Hex : exists i, In i (inspections db_pending_qa)
                          /\ Inspection.task i = Task.id task_pending_qa
                          /\ Inspection.decision i = Decision.pending).
  { eexists. split; [left; reflexivity|]. split; reflexivity. }
  assert (Hcom : req_decision rejection_bad = Decision.rejected ->
                 Py.strip (req_comments rejection_bad) <> EmptyString)
    by (intros _; vm_compute; discriminate).
  split; [reflexivity|]. split; [reflexivity|]. split; [reflexivity|]. split; [exact Hex|].
  split; [reflexivity|]. split; [exact Hcom|].
  destruct (qa_decision_updates_the_pending_inspection db_pending_qa inspector_2
              rejection_bad 600000000 task_pending_qa
              eq_refl eq_refl eq_refl Hex eq_refl Hcom)
    as (inspection & _ & _ & _ & _ & Hupd & _).
  exists inspection. exact Hupd.
Defined.

(** A rejection whose comments are blanks only is refused like one without
    comments, and nothing is written. *)
Example blank_comments_are_no_comments :
  InspectionViewSet_create db_pending_qa inspector_2
    (mkDecisionRequest 1 Decision.rejected "   ") 600000000
  = (HTTP_400_BAD_REQUEST "comments"
       "Comments are mandatory when rejecting an inspection.",
     db_pending_qa).
Proof. vm_compute. reflexivity. Qed.

Example qa_rejection_of_the_scenario :
  let db := snd (InspectionViewSet_create db_pending_qa inspector_2
                   rejection_bad 600000000) in
  status_of db 1 = Some TaskStatus.rejected
  /\ device_status_of db 1 = Some DeviceStatus.rejected
  /\ map (fun i => (Inspection.id i, Inspection.decision i, Inspection.inspector i,
                    Inspection.comments i)) (inspections db)
     = [(1, Decision.rejected, Some 2, "bad"%string)]
  /\ map (fun n => (Notification.user n, Notification.type n))
         (skipn (List.length (notifications db_pending_qa)) (notifications db))
     = [(1, "task_rejected"%string)].
Proof. vm_compute. repeat split; reflexivity. Qed.

(* ===================================================================== *)
(** * After the supervisor's approval *)
(* ===================================================================== *)

Lemma get_of_member {A : Type} (pk_of : A -> Z) (rows : list A) (row : A) :
  NoDup (map pk_of rows) -> In row rows -> get pk_of (pk_of row) rows = Some row.
Proof.
  unfold get. induction rows as [|r rows IH]; intros Hnd Hin; [destruct Hin|].
  inversion Hnd as [|x xs Hr Hrows]; subst. cbn [find].
  destruct Hin as [-> | Hin].
  - now rewrite Z.eqb_refl.
  - destruct (Z.eqb_spec (pk_of r) (pk_of row)) as [E | N].
    + exfalso. apply Hr. rewrite E. now apply in_map.
    + now apply IH.
Qed.

(** With unique keys, [start], [end], the quality decision and the tester's
    decision leave the status of an approved task alone: each of them checks
    the status it starts from.  After any transition an approved task is
    still approved, or it was rewritten by a supervisor's decision. *)
Lemma approved_after_step (db : DB) (user : User.t) (now : Z) (tr : Transition) (pk : Z) :
  NoDup (map Task.id (tasks db)) ->
  status_of db pk = Some TaskStatus.supervisor_approved ->
  status_of (snd (step db user now tr)) pk = Some TaskStatus.supervisor_approved
  \/ (exists data, tr = SupervisorDecision data)
     /\ status_of (snd (step db user now tr)) pk = Some TaskStatus.rejected.
Proof.
  intros Hnd Hstatus. unfold status_of in *.
  destruct (get Task.id pk (tasks db)) as [row|] eqn:Hrow; [|discriminate].
  injection Hstatus as Hstatus.
  destruct (step_tasks db user now tr) as [E | (task & f & Hin & E & Hf)]; rewrite E.
  - left. rewrite Hrow. cbn [option_map]. now rewrite Hstatus.
  - assert (Hkeeps : forall r, Task.id (f r) = Task.id r).
    { destruct tr; cbn [rewrites] in Hf.
      - destruct Hf as (_ & ->). reflexivity.
      - destruct Hf as (_ & a & ->). reflexivity.
      - destruct Hf as (_ & [-> | ->]); reflexivity.
      - destruct Hf as (_ & [-> | ->]); reflexivity.
      - destruct Hf as [-> | ->]; reflexivity. }
    rewrite get_update by exact Hkeeps. rewrite Hrow.
    destruct (Z.eqb_spec pk (Task.id task)) as [Epk | Npk];
      [|left; cbn [option_map]; now rewrite Hstatus].
    assert (Htask : task = row).
    { pose proof (get_of_member Task.id (tasks db) task Hnd Hin) as G.
      rewrite <- Epk, Hrow in G. congruence. }
    subst task. cbn [option_map].
    destruct tr; cbn [rewrites] in Hf.
    + destruct Hf as (Hs & _). congruence.
    + destruct Hf as (Hs & _). congruence.
    + destruct Hf as (Hs & _). congruence.
    + destruct Hf as (Hs & _). congruence.
    + destruct Hf as [-> | ->]; [left; reflexivity | right].
      split; [now eexists | reflexivity].
Qed.

(** The task of the scenario on its way to approval. *)
Definition db_pending_tester : DB :=
  Eval vm_compute in
    snd (step db_pending_qa inspector_2 600000000
           (QaDecision (mkDecisionRequest 1 Decision.accepted "ok"))).

Definition db_pending_supervisor : DB :=
  Eval vm_compute in
    snd (step db_pending_tester tester_3 700000000
           (TesterDecision (mkDecisionRequest 1 Decision.accepted "ok"))).

Definition db_approved : DB :=
  Eval vm_compute in
    snd (step db_pending_supervisor supervisor_4 800000000
           (SupervisorDecision (mkSupervisorRequest 1 Decision.accepted "ok"))).

Example happy_path :
  status_of db_pending_tester 1 = Some TaskStatus.pending_tester
  /\ status_of db_pending_supervisor 1 = Some TaskStatus.pending_supervisor
  /\ status_of db_approved 1 = Some TaskStatus.supervisor_approved
  /\ device_status_of db_approved 1 = Some DeviceStatus.completed.
Proof. repeat split. Qed.

(** C5 fails on the code.  The supervisor's endpoint does not look at the
    status of the task: a second review of the same inspection, [rejected],
    takes the approved task and its device to [rejected]. *)
Theorem supervisor_rejection_reopens_an_approved_task :
  status_of db_approved 1 = Some TaskStatus.supervisor_approved
  /\ has_permission IsSupervisorOrAdmin supervisor_4 = true
  /\ fst (step db_approved supervisor_4 900000000
            (SupervisorDecision (mkSupervisorRequest 1 Decision.rejected "")))
     = HTTP_201_CREATED
  /\ status_of
       (snd (step db_approved supervisor_4 900000000
               (SupervisorDecision (mkSupervisorRequest 1 Decision.rejected ""))))
       1
     = Some TaskStatus.rejected
  /\ device_status_of
       (snd (step db_approved supervisor_4 900000000
               (SupervisorDecision (mkSupervisorRequest 1 Decision.rejected ""))))
       1
     = Some DeviceStatus.rejected.
Proof. vm_compute. repeat split; reflexivity. Qed.

(** The two sibling endpoints refuse a task that is not in their status. *)
Example siblings_check_the_status :
  step db_approved inspector_2 900000000
    (QaDecision (mkDecisionRequest 1 Decision.rejected "late"))
  = (HTTP_400_BAD_REQUEST "task_id"
       "Task is not ready for QA inspection. Current status: Supervisor Approved.",
     db_approved)
  /\ step db_approved tester_3 900000000
       (TesterDecision (mkDecisionRequest 1 Decision.rejected "late"))
     = (HTTP_400_BAD_REQUEST "task_id"
          "Task is not ready for tester review. Current status: Supervisor Approved.",
        db_approved).
Proof. split; reflexivity. Qed.

(* ===================================================================== *)
(** * The technician's daily metrics *)
(* ===================================================================== *)

(** The sum of a list of integers. *)
Definition total (l : list Z) : Z := fold_right Z.add 0 l.

(** A column with its NULLs read as 0. *)
Definition or_zero (x : option Z) : Z :=
  match x with
  | Some v => v
  | None => 0
  end.

Lemma or_int_zero (x : option Z) : Py.or_int x 0 = or_zero x.
Proof.
  destruct x as [v|]; cbn; [|reflexivity].
  destruct (Z.eqb_spec v 0); congruence.
Qed.

(** [Sum(...) or 0] is the sum of the values that are there. *)
Lemma Sum_or_zero (column : list (option Z)) :
  Py.or_int (Sum column) 0 = total (map or_zero column).
Proof.
  rewrite or_int_zero. unfold Sum.
  assert (H : forall acc,
             or_zero
               (fold_left
                  (fun acc v =>
                     match v with
                     | None => acc
                     | Some x => match acc with
                                 | None => Some x
                                 | Some a => Some (a + x)
                                 end
                     end) column acc)
             = or_zero acc + total (map or_zero column)).
  { induction column as [|v column IH]; intros acc; cbn [fold_left map total fold_right].
    - lia.
    - rewrite IH. fold (total (map or_zero column)).
      destruct v as [x|], acc as [a|]; cbn [or_zero]; lia. }
  rewrite H. reflexivity.
Qed.

(** The completed tasks with a positive actual time. *)
Definition timed (completed : list Task.t) : list Task.t :=
  filter (fun t => 0 <? or_zero (Task.actual_time_seconds t)) completed.

(** [(standard / actual) * 100] of one task. *)
Definition per_task_efficiency (t : Task.t) : Py.float :=
  Py.fmul (Py.truediv (Task.standard_time_seconds t) (or_zero (Task.actual_time_seconds t)))
          (Py.to_float 100).

(** The arithmetic mean of a list of doubles. *)
Definition mean (xs : list Py.float) : Py.float :=
  Py.fdiv_int (Py.sum xs) (Z.of_nat (List.length xs)).

Lemma efficiencies_of_timed (completed : list Task.t) :
  efficiencies_of completed = map per_task_efficiency (timed completed).
Proof.
  unfold efficiencies_of, timed. induction completed as [|t ts IH]; [reflexivity|].
  cbn [flat_map filter]. rewrite !or_int_zero. cbn [or_zero].
  destruct (0 <? or_zero (Task.actual_time_seconds t)); cbn [app map]; now rewrite IH.
Qed.

Lemma completed_tasks_in (date_of : Z -> Z) (db : DB) (technician_id target_date : Z)
      (t : Task.t) :
  In t (completed_tasks date_of db technician_id target_date)
  <-> In t (tasks db)
      /\ Task.technician t = Some technician_id
      /\ Task.status t = TaskStatus.done
      /\ exists ended, Task.end_time t = Some ended /\ date_of ended = target_date.
Proof.
  unfold completed_tasks.
  assert (Hperm : forall l, Permutation (newest_first l) l).
  { induction l as [|u l IH]; cbn [newest_first fold_right]; [apply perm_nil|].
    fold (newest_first l). eapply perm_trans; [|apply perm_skip, IH].
    generalize (newest_first l) as sorted. induction sorted as [|v sorted IHs]; cbn.
    - apply Permutation_refl.
    - destruct (Task.created_at v <=? Task.created_at u).
      + apply Permutation_refl.
      + eapply perm_trans; [apply perm_skip, IHs | apply perm_swap]. }
  assert (Hin : forall l x, In x (newest_first l) <-> In x l).
  { intros l x. split; apply Permutation_in;
      [apply Hperm | apply Permutation_sym, Hperm]. }
  rewrite Hin, filter_In, !andb_true_iff, task_status_eqb_eq. clear Hperm Hin.
  split.
  - intros (Hin & (Htech & Hstatus) & Hend). split; [exact Hin|].
    destruct (Task.technician t) as [uid|]; [|discriminate].
    apply Z.eqb_eq in Htech. subst uid.
    destruct (Task.end_time t) as [e|]; [|discriminate].
    apply Z.eqb_eq in Hend. repeat split; eauto.
  - intros (Hin & -> & Hstatus & e & -> & He). rewrite Z.eqb_refl.
    repeat split; auto. now apply Z.eqb_eq.
Qed.

(** Three tasks done by technician 1 on day 0: 600 s of work done in 300 s,
    100 s done in 400 s, and one without a recorded time. *)
Definition db_done : DB :=
  mkDB [technician_1] [] [] []
    [Task.mk 1 None 1 1 (Some 1) "A" 600 TaskType.technician
       (Some 0) (Some 300000000) (Some 300) TaskStatus.done 0 0;
     Task.mk 2 None 1 1 (Some 1) "B" 100 TaskType.technician
       (Some 0) (Some 700000000) (Some 400) TaskStatus.done 0 0;
     Task.mk 3 None 1 1 (Some 1) "C" 100 TaskType.technician
       (Some 0) (Some 800000000) None TaskStatus.done 0 0;
     Task.mk 4 None 1 1 (Some 1) "D" 100 TaskType.technician
       (Some 0) (Some 900000000) (Some 50) TaskStatus.pending_qa 0 0]
    [] [] [] [].

(** The day of a timestamp at UTC+3. *)
Definition day_in_amman (t : Z) : Z := (t + 3 * 3600 * 1000000) / (86400 * 1000000).

(** The average is taken over the per-task values (200 and 25 give 112.5),
    not over the summed times (800 over 700 would give 114.29). *)
Example metrics_of_a_day :
  calculate_technician_metrics day_in_amman db_done 1 0
  = TechnicianMetrics.mk (Py.hundredths 278) (Py.hundredths 11250) (Py.hundredths 243) 2 0
  /\ Py.round (Py.fmul (Py.truediv 800 700) (Py.to_float 100)) 2 = Py.hundredths 11429
  /\ calculate_technician_metrics day_in_amman db_done 1 1
     = TechnicianMetrics.mk (Py.to_float 0) (Py.to_float 0) (Py.to_float 0) 0 1.
Proof. vm_compute. repeat split; reflexivity. Qed.

(** What [calculate_technician_metrics] computes.  For a technician and a
    date, over the technician's tasks of status [done] whose end time falls
    on that date: productivity is the sum of the standard times over 28800
    times 100, utilization the sum of the actual times over 28800 times 100,
    efficiency the mean of [(standard / actual) * 100] over the tasks with a
    positive actual time (0.0 when there is none), each rounded to 2
    decimals; the three are 0.0 when there is no such task. *)
Theorem technician_daily_metrics
    (date_of : Z -> Z) (db : DB) (technician_id target_date : Z) :
  (forall t,
     In t (completed_tasks date_of db technician_id target_date)
     <-> In t (tasks db)
         /\ Task.technician t = Some technician_id
         /\ Task.status t = TaskStatus.done
         /\ exists ended, Task.end_time t = Some ended /\ date_of ended = target_date)
  /\ (completed_tasks date_of db technician_id target_date = [] ->
      TechnicianMetrics.productivity
        (calculate_technician_metrics date_of db technician_id target_date) = Py.to_float 0
      /\ TechnicianMetrics.average_efficiency
           (calculate_technician_metrics date_of db technician_id target_date) = Py.to_float 0
      /\ TechnicianMetrics.utilization
           (calculate_technician_metrics date_of db technician_id target_date) = Py.to_float 0)
  /\ (completed_tasks date_of db technician_id target_date <> [] ->
      TechnicianMetrics.productivity
        (calculate_technician_metrics date_of db technician_id target_date)
      = Py.round
          (Py.fmul
             (Py.truediv
                (total (map Task.standard_time_seconds
                          (completed_tasks date_of db technician_id target_date)))
                28800)
             (Py.to_float 100))
          2
      /\ TechnicianMetrics.utilization
           (calculate_technician_metrics date_of db technician_id target_date)
         = Py.round
             (Py.fmul
                (Py.truediv
                   (total (map (fun t => or_zero (Task.actual_time_seconds t))
                             (completed_tasks date_of db technician_id target_date)))
                   28800)
                (Py.to_float 100))
             2
      /\ TechnicianMetrics.average_efficiency
           (calculate_technician_metrics date_of db technician_id target_date)
         = Py.round
             (match timed (completed_tasks date_of db technician_id target_date) with
              | [] => Py.to_float 0
              | _ :: _ =>
                  mean (map per_task_efficiency
                          (timed (completed_tasks date_of db technician_id target_date)))
              end)
             2)
  /\ (forall t,
        In t (timed (completed_tasks date_of db technician_id target_date)) ->
        exists actual,
          Task.actual_time_seconds t = Some actual /\ 0 < actual
          /\ per_task_efficiency t
             = Py.fmul (Py.truediv (Task.standard_time_seconds t) actual) (Py.to_float 100)).
Proof.
  split; [intros t; apply completed_tasks_in|].
  unfold calculate_technician_metrics.
  set (completed := completed_tasks date_of db technician_id target_date).
  split; [|split].
  - intros ->. repeat split.
  - intros Hne. destruct completed as [|c cs] eqn:Ec; [congruence|].
    rewrite <- Ec. cbn [TechnicianMetrics.productivity TechnicianMetrics.utilization
                        TechnicianMetrics.average_efficiency].
    rewrite !Sum_or_zero, !map_map. cbn [or_zero].
    change (0 <? TOTAL_AVAILABLE_TIME_SECONDS) with true. cbv iota.
    change TOTAL_AVAILABLE_TIME_SECONDS with 28800.
    split; [reflexivity|]. split; [reflexivity|].
    rewrite efficiencies_of_timed.
    destruct (timed completed) as [|t ts]; reflexivity.
  - intros t Ht. apply filter_In in Ht. destruct Ht as [_ Ht].
    unfold per_task_efficiency.
    destruct (Task.actual_time_seconds t) as [a|]; cbn [or_zero] in *.
    + exists a. apply Z.ltb_lt in Ht. auto.
    + discriminate.
Qed.

(** ** The tasks the workflow completes *)

(** The statuses the endpoints write. *)
Definition written (s : TaskStatus.t) : Prop :=
  In s [TaskStatus.in_progress; TaskStatus.pending_qa; TaskStatus.pending_tester;
        TaskStatus.pending_supervisor; TaskStatus.supervisor_approved;
        TaskStatus.rejected].

Lemma rewrites_written (user : User.t) (now : Z) (tr : Transition)
      (task : Task.t) (f : Task.t -> Task.t) :
  rewrites user now tr task f -> forall r, written (Task.status (f r)).
Proof.
  intros Hf r. unfold written. destruct tr; cbn [rewrites] in Hf.
  - destruct Hf as (_ & ->). cbn. tauto.
  - destruct Hf as (_ & a & ->). cbn. tauto.
  - destruct Hf as (_ & [-> | ->]); cbn; tauto.
  - destruct Hf as (_ & [-> | ->]); cbn; tauto.
  - destruct Hf as [-> | ->]; cbn; tauto.
Qed.

Lemma step_written (db : DB) (user : User.t) (now : Z) (tr : Transition) (t : Task.t) :
  In t (tasks (snd (step db user now tr))) ->
  In t (tasks db) \/ written (Task.status t).
Proof.
  destruct (step_tasks db user now tr) as [E | (task & f & Hin & E & Hf)]; rewrite E;
    [now left|].
  unfold update. intros H. apply in_map_iff in H. destruct H as (r & Hr & Hrin).
  destruct (Task.id r =? Task.id task).
  - right. subst t. now apply (rewrites_written user now tr task f).
  - left. now subst t.
Qed.

Lemma run_cons (db : DB) (user : User.t) (now : Z) (tr : Transition)
      (trace : list (User.t * Z * Transition)) :
  run db ((user, now, tr) :: trace) = run (snd (step db user now tr)) trace.
Proof. reflexivity. Qed.

Lemma run_written (db : DB) (trace : list (User.t * Z * Transition)) (t : Task.t) :
  In t (tasks (run db trace)) -> In t (tasks db) \/ written (Task.status t).
Proof.
  revert db. induction trace as [|[[user now] tr] trace IH]; intros db H; [now left|].
  rewrite run_cons in H. destruct (IH _ H) as [H' | H']; [|now right].
  now apply step_written in H'.
Qed.

(** No request of the workflow brings a task to [done]. *)
Lemma run_not_done (db : DB) (trace : list (User.t * Z * Transition)) :
  (forall t, In t (tasks db) -> Task.status t <> TaskStatus.done) ->
  forall t, In t (tasks (run db trace)) -> Task.status t <> TaskStatus.done.
Proof.
  intros H t Ht. destruct (run_written db trace t Ht) as [Hin | Hw]; [now apply H|].
  intros E. rewrite E in Hw. unfold written in Hw. cbn in Hw.
  repeat (destruct Hw as [Hw | Hw]; [discriminate|]). exact Hw.
Qed.

Lemma completed_tasks_none (date_of : Z -> Z) (db : DB) (technician_id target_date : Z) :
  (forall t, In t (tasks db) -> Task.status t <> TaskStatus.done) ->
  completed_tasks date_of db technician_id target_date = [].
Proof.
  intros H.
  destruct (completed_tasks date_of db technician_id target_date) as [|t l] eqn:E;
    [reflexivity|].
  assert (Ht : In t (completed_tasks date_of db technician_id target_date))
    by (rewrite E; now left).
  apply completed_tasks_in in Ht. destruct Ht as (Hin & _ & Hdone & _).
  now apply H in Hin.
Qed.

(** The requests that take the task of the scenario from its start to the
    supervisor's approval. *)
Definition requests_of_the_scenario : list (User.t * Z * Transition) :=
  [(technician_1, 501999999, End 1);
   (inspector_2, 600000000, QaDecision (mkDecisionRequest 1 Decision.accepted "ok"));
   (tester_3, 700000000, TesterDecision (mkDecisionRequest 1 Decision.accepted "ok"));
   (supervisor_4, 800000000,
    SupervisorDecision (mkSupervisorRequest 1 Decision.accepted "ok"))].

(** C9 fails on the code.  The metrics are computed over the tasks of status
    [done], and no request of the workflow writes that status: [end] writes
    [pending_qa].  Task 1 of the scenario (600 s of standard time) was ended
    by technician 1 after 500 s, on day 0, and then accepted by the quality
    inspector, the tester and the supervisor.  Over that task the formulas
    give a productivity of 2.08, an efficiency of 120.0 and a utilization of
    1.74; the code returns 0.0 for the three and counts no task, after the
    end as after the approval.  It does so after any requests on a database
    without a task of status [done]. *)
Theorem metrics_skip_the_tasks_the_workflow_completes :
  run (db_in_progress 1000000) requests_of_the_scenario = db_approved
  /\ (exists t,
        get Task.id 1 (tasks db_approved) = Some t
        /\ Task.technician t = Some 1
        /\ Task.status t = TaskStatus.supervisor_approved
        /\ Task.standard_time_seconds t = 600
        /\ Task.actual_time_seconds t = Some 500
        /\ Task.end_time t = Some 501999999
        /\ day_in_amman 501999999 = 0)
  /\ calculate_technician_metrics day_in_amman db_pending_qa 1 0
     = TechnicianMetrics.mk (Py.to_float 0) (Py.to_float 0) (Py.to_float 0) 0 0
  /\ calculate_technician_metrics day_in_amman db_approved 1 0
     = TechnicianMetrics.mk (Py.to_float 0) (Py.to_float 0) (Py.to_float 0) 0 0
  /\ Py.round (Py.fmul (Py.truediv 600 28800) (Py.to_float 100)) 2 = Py.hundredths 208
  /\ Py.round (Py.fmul (Py.truediv 600 500) (Py.to_float 100)) 2 = Py.hundredths 12000
  /\ Py.round (Py.fmul (Py.truediv 500 28800) (Py.to_float 100)) 2 = Py.hundredths 174
  /\ forall (date_of : Z -> Z) (db : DB) (trace : list (User.t * Z * Transition))
            (technician_id target_date : Z),
       (forall t, In t (tasks db) -> Task.status t <> TaskStatus.done) ->
       calculate_technician_metrics date_of (run db trace) technician_id target_date
       = TechnicianMetrics.mk (Py.to_float 0) (Py.to_float 0) (Py.to_float 0) 0 target_date.
Proof.
  split; [vm_compute; reflexivity|].
  split; [eexists; repeat split; vm_compute; reflexivity|].
  do 5 (split; [vm_compute; reflexivity|]).
  intros date_of db trace technician_id target_date H.
  unfold calculate_technician_metrics.
  rewrite completed_tasks_none; [reflexivity|].
  now apply run_not_done.
Qed.
